(** * perun memory collector: the injected allocation functions (malloc.c)

    A shallow embedding of [src/perun/collect/memory/malloc.c], the shared
    library that interposes on the C allocation entry points, forwards every
    call to the implementation found by [dlsym(RTLD_NEXT, ...)] and writes a
    record of it to the file [MemoryLog].

    The code is modelled in a small state-and-exit monad.  The machine state
    holds the globals of the translation unit ([mutex], [logFile], the eight
    [real_*] function pointers), the state of everything outside of it (the
    dynamic linker, libc, the original allocator, the clock) and the list of
    calls made to the outside so far.  Integer types follow the LP64 data
    model of the platform the file was written for (Linux, x86-64):
    [unsigned int] and [int] are 32 bits wide, [size_t], [unsigned long],
    [long] and pointers 64 bits.

    Every function takes the thread that runs it.  A call made while the
    same thread is inside [init_log_file] or [ad_log] (a nested call) is a
    call entered with [mutex > 0].  The functions as transcribed run alone:
    nothing else touches the globals while they call the outside.  What
    the library or another thread does during such a call (an interposed
    [malloc] made by [fopen], a [free] made by [fclose], a call of another
    thread between two statements) is the subject of the section on
    overlapping calls, which runs a given computation at those points. *)

From Stdlib Require Import ZArith List String Bool Lia.
Import ListNotations.
#[local] Open Scope string_scope.
#[local] Open Scope list_scope.
#[local] Open Scope Z_scope.

(** ** C integer conversions *)

Definition UINT_MAX : Z := 2 ^ 32 - 1.
Definition INT_MAX : Z := 2 ^ 31 - 1.
Definition SIZE_MAX : Z := 2 ^ 64 - 1.
Definition LONG_MAX : Z := 2 ^ 63 - 1.

(** Conversion to [unsigned int]: reduction modulo 2^32. *)
Definition to_uint (z : Z) : Z := z mod 2 ^ 32.

(** Conversion to [int] (gcc: reduction modulo 2^32 into the signed range). *)
Definition to_int (z : Z) : Z :=
  let u := z mod 2 ^ 32 in if u <? 2 ^ 31 then u else u - 2 ^ 32.

(** Conversion to [size_t] / [unsigned long]: reduction modulo 2^64. *)
Definition to_size_t (z : Z) : Z := z mod 2 ^ 64.
Definition to_ulong (z : Z) : Z := z mod 2 ^ 64.

(** Conversion to [long int]. *)
Definition to_long (z : Z) : Z :=
  let u := z mod 2 ^ 64 in if u <? 2 ^ 63 then u else u - 2 ^ 64.

(** ** Constants of the translation unit *)

Definition LOG_FILE_NAME : string := "MemoryLog".
Definition CALLS_TO_SKIP : Z := 1.
(** [EXIT_FAILURE] of <stdlib.h> (glibc). *)
Definition EXIT_FAILURE : Z := 1.
Definition NULL : Z := 0.

(** ** Data *)

(** Threads: [mutex] is declared [__thread], one copy per thread. *)
Definition tid := nat.

(** The eight function pointers to the original implementations. *)
Inductive slot : Type :=
| real_malloc | real_free | real_realloc | real_calloc
| real_memalign | real_posix_memalign | real_valloc | real_aligned_alloc.

Definition slot_eqb (a b : slot) : bool :=
  match a, b with
  | real_malloc, real_malloc | real_free, real_free
  | real_realloc, real_realloc | real_calloc, real_calloc
  | real_memalign, real_memalign
  | real_posix_memalign, real_posix_memalign
  | real_valloc, real_valloc
  | real_aligned_alloc, real_aligned_alloc => true
  | _, _ => false
  end.

(** A call of one of the interposed entry points with its arguments. *)
Inductive call : Type :=
| Cmalloc (size : Z)
| Cfree (ptr : Z)
| Crealloc (ptr size : Z)
| Ccalloc (nmemb size : Z)
| Cmemalign (alignment size : Z)
| Cposix_memalign (memptr alignment size : Z)
| Cvalloc (size : Z)
| Caligned_alloc (alignment size : Z).

(** The pointer variable a call goes through, and the name it is looked up
    under. *)
Definition slot_of (c : call) : slot :=
  match c with
  | Cmalloc _ => real_malloc
  | Cfree _ => real_free
  | Crealloc _ _ => real_realloc
  | Ccalloc _ _ => real_calloc
  | Cmemalign _ _ => real_memalign
  | Cposix_memalign _ _ _ => real_posix_memalign
  | Cvalloc _ => real_valloc
  | Caligned_alloc _ _ => real_aligned_alloc
  end.

Definition symbol (k : slot) : string :=
  match k with
  | real_malloc => "malloc"
  | real_free => "free"
  | real_realloc => "realloc"
  | real_calloc => "calloc"
  | real_memalign => "memalign"
  | real_posix_memalign => "posix_memalign"
  | real_valloc => "valloc"
  | real_aligned_alloc => "aligned_alloc"
  end.

(** Output streams: [stderr], or a [FILE *] obtained from [fopen]. *)
Inductive stream : Type :=
| stderr
| file (fp : Z).

(** Arguments of an [fprintf] after the format string.  [ASeconds c] stands
    for the double [c / (double)CLOCKS_PER_SEC]. *)
Inductive arg : Type :=
| AStr (s : string)
| AULong (n : Z)
| ALong (n : Z)
| ASeconds (clocks : Z).

(** Calls that leave the translation unit. *)
Inductive event : Type :=
| EDlsym (name : string) (res : Z)
| EFopen (path mode : string) (res : Z)
| EClock (res : Z)
| EFprintf (st : stream) (fmt : string) (args : list arg)
| EBacktrace (st : stream) (skip : Z)
| EFclose (st : stream)
| ECall (fp : Z) (c : call) (res : Z).

(** A trace entry: the calling thread, the value of its [mutex] at the time
    of the call, and the call. *)
Record entry : Type := mkEntry { who : tid; depth : Z; what : event }.

(** Memory cells holding pointers, by address (for [*memptr]). *)
Definition memory := Z -> Z.

(** The outside of the translation unit.  [env_call fp c] is what the
    function at address [fp] does when it is called with the arguments of
    [c]; it may write the memory of the program. *)
Record Env (W : Type) : Type := mkEnv {
  env_dlsym : string -> W -> Z * W;
  env_fopen : string -> string -> W -> Z * W;
  env_clock : W -> Z * W;
  env_call : Z -> call -> W * memory -> Z * (W * memory) }.

Arguments env_dlsym {W}.
Arguments env_fopen {W}.
Arguments env_clock {W}.
Arguments env_call {W}.

Section Interposer.

Variable W : Type.
Variable env : Env W.

(** ** Machine state *)

Record state : Type := mkState {
  mutex : tid -> Z;        (* __thread unsigned int mutex = 0; *)
  logFile : Z;             (* static FILE *logFile = NULL; *)
  real : slot -> Z;        (* the static function pointers, NULL at start *)
  world : W;
  mem : memory;
  trace : list entry }.

Definition set_mutex (t : tid) (v : Z) (s : state) : state :=
  mkState (fun t' => if Nat.eqb t' t then v else mutex s t')
          (logFile s) (real s) (world s) (mem s) (trace s).

Definition set_logFile (v : Z) (s : state) : state :=
  mkState (mutex s) v (real s) (world s) (mem s) (trace s).

Definition set_real (k : slot) (v : Z) (s : state) : state :=
  mkState (mutex s) (logFile s)
          (fun k' => if slot_eqb k' k then v else real s k')
          (world s) (mem s) (trace s).

Definition set_world (w : W) (s : state) : state :=
  mkState (mutex s) (logFile s) (real s) w (mem s) (trace s).

Definition set_mem (m : memory) (s : state) : state :=
  mkState (mutex s) (logFile s) (real s) (world s) m (trace s).

Definition record_event (t : tid) (e : event) (s : state) : state :=
  mkState (mutex s) (logFile s) (real s) (world s) (mem s)
          (trace s ++ [mkEntry t (mutex s t) e]).

(** State at process start: all globals are zero-initialised. *)
Definition initial (w : W) (m : memory) : state :=
  mkState (fun _ => 0) NULL (fun _ => NULL) w m [].

(** ** The monad: state, process exit, undefined behaviour *)

Inductive outcome (A : Type) : Type :=
| Returns (a : A) (s : state)
| Exits (status : Z) (s : state)
| Faults (s : state).

Arguments Returns {A}.
Arguments Exits {A}.
Arguments Faults {A}.

Definition M (A : Type) : Type := state -> outcome A.

Definition ret {A} (a : A) : M A := fun s => Returns a s.

Definition bind {A B} (m : M A) (f : A -> M B) : M B :=
  fun s =>
    match m s with
    | Returns a s' => f a s'
    | Exits n s' => Exits n s'
    | Faults s' => Faults s'
    end.

Notation "x <- m ;; k" := (bind m (fun x => k))
  (at level 61, m at next level, right associativity).
Notation "m ;; k" := (bind m (fun _ => k))
  (at level 61, right associativity).

Definition when (b : bool) (m : M unit) : M unit :=
  if b then m else ret tt.

Definition gets {A} (f : state -> A) : M A := fun s => Returns (f s) s.
Definition modify (f : state -> state) : M unit := fun s => Returns tt (f s).
Definition terminate {A} (status : Z) : M A := fun s => Exits status s.
Definition undefined {A} : M A := fun s => Faults s.

Definition final {A} (o : outcome A) : state :=
  match o with
  | Returns _ s | Exits _ s | Faults s => s
  end.

(** ** Calls to the outside *)

Definition dlsym (t : tid) (name : string) : M Z :=
  fun s =>
    let (p, w) := env_dlsym env name (world s) in
    Returns p (record_event t (EDlsym name p) (set_world w s)).

Definition fopen (t : tid) (path mode : string) : M Z :=
  fun s =>
    let (f, w) := env_fopen env path mode (world s) in
    Returns f (record_event t (EFopen path mode f) (set_world w s)).

Definition clock (t : tid) : M Z :=
  fun s =>
    let (c, w) := env_clock env (world s) in
    Returns c (record_event t (EClock c) (set_world w s)).

Definition is_null_stream (st : stream) : bool :=
  match st with
  | stderr => false
  | file fp => fp =? NULL
  end.

(** Writing to a null [FILE *] is undefined. *)
Definition fprintf (t : tid) (st : stream) (fmt : string) (args : list arg)
  : M unit :=
  if is_null_stream st then undefined
  else modify (record_event t (EFprintf st fmt args)).

Definition fclose (t : tid) (st : stream) : M unit :=
  if is_null_stream st then undefined
  else modify (record_event t (EFclose st)).

(** Modelled from the spec: [backtrace] of backtrace.h, which is not part of
    the sources; an opaque collaborator "invoked with a handle to a
    destination sink and a count of frames to elide", which writes the stack
    frames to the sink. *)
Definition backtrace (t : tid) (st : stream) (skip : Z) : M unit :=
  if is_null_stream st then undefined
  else modify (record_event t (EBacktrace st skip)).

(** A call through a function pointer; through a null pointer it is
    undefined. *)
Definition call_ptr (t : tid) (fp : Z) (c : call) : M Z :=
  fun s =>
    if fp =? NULL then Faults s
    else
      let '(r, (w, m)) := env_call env fp c (world s, mem s) in
      Returns r (record_event t (ECall fp c r) (set_mem m (set_world w s))).

(** ** malloc.c *)

(** [int lock_mutex() { return __sync_fetch_and_add(&mutex, 1); }] *)
Definition lock_mutex (t : tid) : M Z :=
  fun s =>
    let old := mutex s t in
    Returns (to_int old) (set_mutex t (to_uint (old + 1)) s).

(** [void unlock_mutex() { __sync_fetch_and_sub(&mutex, 1); }] *)
Definition unlock_mutex (t : tid) : M unit :=
  fun s => Returns tt (set_mutex t (to_uint (mutex s t - 1)) s).

(** The destructor. *)
Definition finalize (t : tid) : M unit :=
  lf <- gets logFile ;;
  when (negb (lf =? NULL))
    (c <- clock t ;;
     lf1 <- gets logFile ;;
     fprintf t (file lf1) "EXIT %fs\n" [ASeconds c] ;;
     lf2 <- gets logFile ;;
     fclose t (file lf2)).

(** [exit(status)]: the destructors of the library run, then the process
    ends. *)
Definition exit {A} (t : tid) (status : Z) : M A :=
  finalize t ;; terminate status.

Definition init_log_file (t : tid) : M unit :=
  lock_mutex t ;;
  lf <- gets logFile ;;
  when (lf =? NULL)
    (f <- fopen t LOG_FILE_NAME "w" ;;
     modify (set_logFile f) ;;
     lf' <- gets logFile ;;
     when (lf' =? NULL)
       (fprintf t stderr "error: fopen()\n" [] ;;
        exit t EXIT_FAILURE)) ;;
  unlock_mutex t.

Definition ad_log (t : tid) (allocator : string) (size ptr : Z) : M unit :=
  lock_mutex t ;;
  c <- clock t ;;
  lf1 <- gets logFile ;;
  fprintf t (file lf1) "time %fs\n" [ASeconds c] ;;
  lf2 <- gets logFile ;;
  fprintf t (file lf2) "%s %luB %li\n"
    [AStr allocator; AULong (to_ulong size); ALong (to_long ptr)] ;;
  lf3 <- gets logFile ;;
  backtrace t (file lf3) CALLS_TO_SKIP ;;
  lf4 <- gets logFile ;;
  fprintf t (file lf4) "\n" [] ;;
  unlock_mutex t.

Definition malloc (t : tid) (size : Z) : M Z :=
  fp0 <- gets (fun s => real s real_malloc) ;;
  when (fp0 =? NULL)
    (p <- dlsym t "malloc" ;;
     modify (set_real real_malloc p) ;;
     fp1 <- gets (fun s => real s real_malloc) ;;
     when (fp1 =? NULL)
       (fprintf t stderr "error: dlsym() malloc\n" [] ;;
        exit t EXIT_FAILURE) ;;
     init_log_file t) ;;
  fp <- gets (fun s => real s real_malloc) ;;
  ptr <- call_ptr t fp (Cmalloc size) ;;
  m <- gets (fun s => mutex s t) ;;
  when ((m =? 0) && negb (ptr =? NULL))
    (ad_log t "malloc" size ptr) ;;
  ret ptr.

Definition free (t : tid) (ptr : Z) : M unit :=
  fp0 <- gets (fun s => real s real_free) ;;
  when (fp0 =? NULL)
    (p <- dlsym t "free" ;;
     modify (set_real real_free p) ;;
     fp1 <- gets (fun s => real s real_free) ;;
     when (fp1 =? NULL)
       (fprintf t stderr "error: dlsym() free\n" [] ;;
        exit t EXIT_FAILURE) ;;
     init_log_file t) ;;
  fp <- gets (fun s => real s real_free) ;;
  call_ptr t fp (Cfree ptr) ;;
  m <- gets (fun s => mutex s t) ;;
  when (m =? 0)
    (ad_log t "free" 0 ptr).

Definition realloc (t : tid) (ptr size : Z) : M Z :=
  let old_ptr := NULL in
  fp0 <- gets (fun s => real s real_realloc) ;;
  when (fp0 =? NULL)
    (p <- dlsym t "realloc" ;;
     modify (set_real real_realloc p) ;;
     fp1 <- gets (fun s => real s real_realloc) ;;
     when (fp1 =? NULL)
       (fprintf t stderr "error: dlsym() realloc\n" [] ;;
        exit t EXIT_FAILURE) ;;
     init_log_file t) ;;
  let old_ptr := ptr in
  fp <- gets (fun s => real s real_realloc) ;;
  nptr <- call_ptr t fp (Crealloc ptr size) ;;
  m <- gets (fun s => mutex s t) ;;
  when ((m =? 0) && negb (nptr =? NULL))
    (ad_log t "realloc" size nptr ;;
     ad_log t "free" 0 old_ptr) ;;
  ret nptr.

Definition calloc (t : tid) (nmemb size : Z) : M Z :=
  fp0 <- gets (fun s => real s real_calloc) ;;
  when (fp0 =? NULL)
    (p <- dlsym t "calloc" ;;
     modify (set_real real_calloc p) ;;
     fp1 <- gets (fun s => real s real_calloc) ;;
     when (fp1 =? NULL)
       (fprintf t stderr "error: dlsym() calloc\n" [] ;;
        exit t EXIT_FAILURE) ;;
     init_log_file t) ;;
  fp <- gets (fun s => real s real_calloc) ;;
  ptr <- call_ptr t fp (Ccalloc nmemb size) ;;
  m <- gets (fun s => mutex s t) ;;
  when ((m =? 0) && negb (ptr =? NULL))
    (ad_log t "calloc" (to_size_t (size * nmemb)) ptr) ;;
  ret ptr.

Definition memalign (t : tid) (alignment size : Z) : M Z :=
  fp0 <- gets (fun s => real s real_memalign) ;;
  when (fp0 =? NULL)
    (p <- dlsym t "memalign" ;;
     modify (set_real real_memalign p) ;;
     fp1 <- gets (fun s => real s real_memalign) ;;
     when (fp1 =? NULL)
       (fprintf t stderr "error: dlsym() memalign\n" [] ;;
        exit t EXIT_FAILURE) ;;
     init_log_file t) ;;
  fp <- gets (fun s => real s real_memalign) ;;
  ptr <- call_ptr t fp (Cmemalign alignment size) ;;
  m <- gets (fun s => mutex s t) ;;
  when ((m =? 0) && negb (ptr =? NULL))
    (ad_log t "memalign" size ptr) ;;
  ret ptr.

Definition posix_memalign (t : tid) (memptr alignment size : Z) : M Z :=
  fp0 <- gets (fun s => real s real_posix_memalign) ;;
  when (fp0 =? NULL)
    (p <- dlsym t "posix_memalign" ;;
     modify (set_real real_posix_memalign p) ;;
     fp1 <- gets (fun s => real s real_posix_memalign) ;;
     when (fp1 =? NULL)
       (fprintf t stderr "error: dlsym() posix_memalign\n" [] ;;
        exit t EXIT_FAILURE) ;;
     init_log_file t) ;;
  fp <- gets (fun s => real s real_posix_memalign) ;;
  r <- call_ptr t fp (Cposix_memalign memptr alignment size) ;;
  m <- gets (fun s => mutex s t) ;;
  when ((m =? 0) && (r =? 0))
    (p <- gets (fun s => mem s memptr) ;;
     ad_log t "posix_memalign" size p) ;;
  ret r.

Definition valloc (t : tid) (size : Z) : M Z :=
  fp0 <- gets (fun s => real s real_valloc) ;;
  when (fp0 =? NULL)
    (p <- dlsym t "valloc" ;;
     modify (set_real real_valloc p) ;;
     fp1 <- gets (fun s => real s real_valloc) ;;
     when (fp1 =? NULL)
       (fprintf t stderr "error: dlsym() valloc\n" [] ;;
        exit t EXIT_FAILURE) ;;
     init_log_file t) ;;
  fp <- gets (fun s => real s real_valloc) ;;
  ptr <- call_ptr t fp (Cvalloc size) ;;
  m <- gets (fun s => mutex s t) ;;
  when ((m =? 0) && negb (ptr =? NULL))
    (ad_log t "valloc" size ptr) ;;
  ret ptr.

Definition aligned_alloc (t : tid) (alignment size : Z) : M Z :=
  fp0 <- gets (fun s => real s real_aligned_alloc) ;;
  when (fp0 =? NULL)
    (p <- dlsym t "aligned_alloc" ;;
     modify (set_real real_aligned_alloc p) ;;
     fp1 <- gets (fun s => real s real_aligned_alloc) ;;
     when (fp1 =? NULL)
       (fprintf t stderr "error: dlsym() aligned_alloc\n" [] ;;
        exit t EXIT_FAILURE) ;;
     init_log_file t) ;;
  fp <- gets (fun s => real s real_aligned_alloc) ;;
  ptr <- call_ptr t fp (Caligned_alloc alignment size) ;;
  m <- gets (fun s => mutex s t) ;;
  when ((m =? 0) && negb (ptr =? NULL))
    (ad_log t "aligned_alloc" size ptr) ;;
  ret ptr.

(** What the caller gets back: nothing from [free], a pointer or a status
    from the others. *)
Definition run_call (t : tid) (c : call) : M (option Z) :=
  match c with
  | Cmalloc size => r <- malloc t size ;; ret (Some r)
  | Cfree ptr => free t ptr ;; ret None
  | Crealloc ptr size => r <- realloc t ptr size ;; ret (Some r)
  | Ccalloc nmemb size => r <- calloc t nmemb size ;; ret (Some r)
  | Cmemalign alignment size => r <- memalign t alignment size ;; ret (Some r)
  | Cposix_memalign memptr alignment size =>
      r <- posix_memalign t memptr alignment size ;; ret (Some r)
  | Cvalloc size => r <- valloc t size ;; ret (Some r)
  | Caligned_alloc alignment size =>
      r <- aligned_alloc t alignment size ;; ret (Some r)
  end.

(** ** The common scheme

    The eight functions are copies of one another up to the pointer they go
    through, the name they look up, the success test and what they hand to
    [ad_log].  [intercept] is that scheme, written once over [call]; it is
    proved equal to [run_call] below and used to reason about all eight at
    once. *)

Definition diagnostic (k : slot) : string :=
  String.append "error: dlsym() " (String.append (symbol k) "\n").

Definition passed (c : call) (r : Z) : bool :=
  match c with
  | Cfree _ => true
  | Cposix_memalign _ _ _ => r =? 0
  | _ => negb (r =? NULL)
  end.

Definition log_call (t : tid) (c : call) (r : Z) : M unit :=
  match c with
  | Cmalloc size => ad_log t "malloc" size r
  | Cfree ptr => ad_log t "free" 0 ptr
  | Crealloc ptr size =>
      ad_log t "realloc" size r ;; ad_log t "free" 0 ptr
  | Ccalloc nmemb size => ad_log t "calloc" (to_size_t (size * nmemb)) r
  | Cmemalign _ size => ad_log t "memalign" size r
  | Cposix_memalign memptr _ size =>
      p <- gets (fun s => mem s memptr) ;;
      ad_log t "posix_memalign" size p
  | Cvalloc size => ad_log t "valloc" size r
  | Caligned_alloc _ size => ad_log t "aligned_alloc" size r
  end.

Definition intercept (t : tid) (c : call) : M (option Z) :=
  fp0 <- gets (fun s => real s (slot_of c)) ;;
  when (fp0 =? NULL)
    (p <- dlsym t (symbol (slot_of c)) ;;
     modify (set_real (slot_of c) p) ;;
     when (p =? NULL)
       (fprintf t stderr (diagnostic (slot_of c)) [] ;;
        exit t EXIT_FAILURE) ;;
     init_log_file t) ;;
  fp <- gets (fun s => real s (slot_of c)) ;;
  r <- call_ptr t fp c ;;
  m <- gets (fun s => mutex s t) ;;
  when ((m =? 0) && passed c r) (log_call t c r) ;;
  ret (match c with Cfree _ => None | _ => Some r end).

(** ** Reading the trace *)

(** The entries added to the trace on the way from state [s] to state
    [s']. *)
Definition emitted (s s' : state) : list entry :=
  skipn (List.length (trace s)) (trace s').

(** An unsigned counter in range, and a log file that is open as soon as one
    of the function pointers is set (every interposed function sets its
    pointer and calls [init_log_file] in the same block). *)
Definition wf (s : state) : Prop :=
  (forall t, 0 <= mutex s t <= UINT_MAX) /\
  (forall k, real s k <> NULL -> logFile s <> NULL).

End Interposer.

Arguments Returns {W A}.
Arguments Exits {W A}.
Arguments Faults {W A}.
Arguments final {W A}.
Arguments emitted {W}.
Arguments mutex {W}.
Arguments logFile {W}.
Arguments real {W}.
Arguments world {W}.
Arguments mem {W}.
Arguments trace {W}.
Arguments wf {W}.
Arguments initial {W}.
Arguments state : clear implicits.
Arguments M : clear implicits.
Arguments ret {W A}.
Arguments bind {W A B}.
Arguments lock_mutex {W}.
Arguments unlock_mutex {W}.
Arguments finalize {W}.
Arguments exit {W} env {A}.
Arguments init_log_file {W}.
Arguments ad_log {W}.
Arguments malloc {W}.
Arguments free {W}.
Arguments realloc {W}.
Arguments calloc {W}.
Arguments memalign {W}.
Arguments posix_memalign {W}.
Arguments valloc {W}.
Arguments aligned_alloc {W}.
Arguments run_call {W}.
Arguments log_call {W}.
Arguments intercept {W}.
Arguments gets {W A}.
Arguments modify {W}.
Arguments when {W}.
Arguments dlsym {W}.
Arguments fopen {W}.
Arguments clock {W}.
Arguments fprintf {W}.
Arguments fclose {W}.
Arguments call_ptr {W}.

(** The allocation records of a trace: allocator, size and address of every
    line written with the format of [ad_log]. *)
Definition record_of (e : entry) : list (string * Z * Z) :=
  match what e with
  | EFprintf (file _) fmt [AStr a; AULong n; ALong p] =>
      if String.eqb fmt "%s %luB %li\n" then [(a, n, p)] else []
  | _ => []
  end.

Definition records (tr : list entry) : list (string * Z * Z) :=
  flat_map record_of tr.

(** What is written to the stream [lf], in order. *)
Definition writes_to (lf : Z) (e : entry) : list event :=
  match what e with
  | EFprintf (file f) _ _ | EBacktrace (file f) _ =>
      if f =? lf then [what e] else []
  | _ => []
  end.

Definition log_lines (lf : Z) (tr : list entry) : list event :=
  flat_map (writes_to lf) tr.

(** The four writes of one [ad_log]. *)
Definition event_block (lf c : Z) (allocator : string) (size ptr : Z)
  : list event :=
  [EFprintf (file lf) "time %fs\n" [ASeconds c];
   EFprintf (file lf) "%s %luB %li\n" [AStr allocator; AULong size; ALong ptr];
   EBacktrace (file lf) CALLS_TO_SKIP;
   EFprintf (file lf) "\n" []].

(** Calls through the function pointers. *)
Definition call_of (e : entry) : list event :=
  match what e with
  | ECall _ _ _ => [what e]
  | _ => []
  end.

Definition calls (tr : list entry) : list event := flat_map call_of tr.

(** Results of the [dlsym] queries for the symbol of slot [k]. *)
Definition query_of (k : slot) (e : entry) : list Z :=
  match what e with
  | EDlsym n r => if String.eqb n (symbol k) then [r] else []
  | _ => []
  end.

Definition queries (k : slot) (tr : list entry) : list Z :=
  flat_map (query_of k) tr.

(** Results of the [fopen] calls. *)
Definition open_of (e : entry) : list Z :=
  match what e with
  | EFopen _ _ r => [r]
  | _ => []
  end.

Definition opens (tr : list entry) : list Z := flat_map open_of tr.

(** The [EXIT] lines and the [fclose] calls. *)
Definition exit_line_of (e : entry) : list Z :=
  match what e with
  | EFprintf (file _) fmt [ASeconds c] =>
      if String.eqb fmt "EXIT %fs\n" then [c] else []
  | _ => []
  end.

Definition exit_lines (tr : list entry) : list Z := flat_map exit_line_of tr.

Definition close_of (e : entry) : list stream :=
  match what e with
  | EFclose st => [st]
  | _ => []
  end.

Definition closes (tr : list entry) : list stream := flat_map close_of tr.

(** Whether the wrapped call reported success: a non-null pointer, status 0
    for [posix_memalign]; [free] cannot fail. *)
Definition succeeded (c : call) (r : option Z) : bool :=
  match c, r with
  | Cfree _, _ => true
  | Cposix_memalign _ _ _, Some v => v =? 0
  | _, Some v => negb (v =? NULL)
  | _, None => false
  end.

(** Records of one logged call: two for [realloc], one for the others. *)
Definition records_per_call (c : call) : nat :=
  match c with
  | Crealloc _ _ => 2
  | _ => 1
  end.

(** What the caller receives when the wrapped function returned [res]. *)
Definition ret_of (c : call) (res : Z) : option Z :=
  match c with
  | Cfree _ => None
  | _ => Some res
  end.

(** The state of the outside in which the wrapped function is entered:
    the lookup and the opening of the log file of a first call come before
    it. *)
Definition world_before_call {W} (env : Env W) (c : call) (s : state W) : W :=
  if real s (slot_of c) =? NULL then
    let (p, w1) := env_dlsym env (symbol (slot_of c)) (world s) in
    if logFile s =? NULL then snd (env_fopen env LOG_FILE_NAME "w" w1)
    else w1
  else world s.

(** The value of [mutex] under which each call to the outside is made by
    a function entered with [mutex = m]: the lookup, its diagnostic and the
    call through the pointer at [m]; the [fopen] of [init_log_file] and its
    diagnostic one level up; the five calls of [ad_log] ([clock], the three
    [fprintf] and [backtrace]) at level 1; what [finalize] does on the exit
    after a failed lookup again at [m].  [ended] tells a call that ended the
    process, whose only [clock] is the one of [finalize], from a call that
    returned, whose [clock] calls are those of [ad_log]. *)
Definition guard_at (ended : bool) (m : Z) (e : entry) : Prop :=
  depth e =
    match what e with
    | EDlsym _ _ => m
    | ECall _ _ _ => m
    | EFopen _ _ _ => to_uint (m + 1)
    | EFprintf stderr fmt _ =>
        if String.eqb fmt "error: fopen()\n" then to_uint (m + 1) else m
    | EFprintf (file _) fmt _ =>
        if String.eqb fmt "EXIT %fs\n" then m else 1
    | EBacktrace _ _ => 1
    | EClock _ => if ended then m else 1
    | EFclose _ => m
    end.

(** A call entry made through the pointer the state holds for it. *)
Definition uses_slot {W} (s : state W) (e : entry) : Prop :=
  match what e with
  | ECall fp c _ => fp = real s (slot_of c) /\ fp <> NULL
  | _ => True
  end.

(** The three calls of [finalize] made by thread [t] with [mutex = d]. *)
Definition finalize_entries (t : tid) (d lf clk : Z) : list entry :=
  [mkEntry t d (EClock clk);
   mkEntry t d (EFprintf (file lf) "EXIT %fs\n" [ASeconds clk]);
   mkEntry t d (EFclose (file lf))].

(** What each function hands to [ad_log] when the wrapped call returned
    [res] and left the memory [m]: the allocator name, the size as printed by
    [%lu] and the address as printed by [%li]. *)
Definition expected_records (c : call) (res : Z) (m : memory)
  : list (string * Z * Z) :=
  match c with
  | Cmalloc size => [("malloc", to_ulong size, to_long res)]
  | Cfree ptr => [("free", to_ulong 0, to_long ptr)]
  | Crealloc ptr size =>
      [("realloc", to_ulong size, to_long res);
       ("free", to_ulong 0, to_long ptr)]
  | Ccalloc nmemb size =>
      [("calloc", to_ulong (to_size_t (size * nmemb)), to_long res)]
  | Cmemalign _ size => [("memalign", to_ulong size, to_long res)]
  | Cposix_memalign memptr _ size =>
      [("posix_memalign", to_ulong size, to_long (m memptr))]
  | Cvalloc size => [("valloc", to_ulong size, to_long res)]
  | Caligned_alloc _ size => [("aligned_alloc", to_ulong size, to_long res)]
  end.

(** The value a caller received, 0 standing for the nothing of [free]. *)
Definition value (r : option Z) : Z :=
  match r with
  | Some v => v
  | None => 0
  end.

(** The clock values of the [time] lines. *)
Definition stamp_of (e : entry) : list Z :=
  match what e with
  | EFprintf (file _) fmt [ASeconds c] =>
      if String.eqb fmt "time %fs\n" then [c] else []
  | _ => []
  end.

Definition stamps (tr : list entry) : list Z := flat_map stamp_of tr.

(** The lines of one record with its time stamp, and the last line of a
    log. *)
Definition block_lines (lf : Z) (b : Z * (string * Z * Z)) : list event :=
  let '(clk, (a, n, p)) := b in event_block lf clk a n p.

Definition exit_line (lf clk : Z) : event :=
  EFprintf (file lf) "EXIT %fs\n" [ASeconds clk].

(** The calls that reached a wrapped function, with the thread that made
    them. *)
Definition forwarded_of (e : entry) : list (tid * call) :=
  match what e with
  | ECall _ c _ => [(who e, c)]
  | _ => []
  end.

Definition forwarded (tr : list entry) : list (tid * call) :=
  flat_map forwarded_of tr.

(** ** Calls that overlap

    [dlsym], [fopen] and [fclose] are functions of the C library: while one
    of them runs on behalf of the library, the C library can call an
    interposed function itself (glibc's [fopen] allocates its [FILE] with
    [malloc], its [fclose] releases it with [free]), and another thread can
    run a call of its own.  The definitions below are [intercept],
    [init_log_file] and [finalize] again, with one more argument for each of
    these calls: what happens while it runs.  With nothing happening they
    are the functions above (proved below). *)

Section Overlap.

Variable W : Type.
Variable env : Env W.

Notation "x <- m ;; k" := (bind m (fun x => k))
  (at level 61, m at next level, right associativity).
Notation "m ;; k" := (bind m (fun _ => k))
  (at level 61, right associativity).

(** A whole call of thread [t], its result dropped. *)
Definition calling (t : tid) (c : call) : M W unit :=
  run_call env t c ;; ret tt.

Definition init_log_file_with (inside_fopen : M W unit) (t : tid)
  : M W unit :=
  lock_mutex t ;;
  lf <- gets logFile ;;
  when (lf =? NULL)
    (inside_fopen ;;
     f <- fopen env t LOG_FILE_NAME "w" ;;
     modify (set_logFile W f) ;;
     lf' <- gets logFile ;;
     when (lf' =? NULL)
       (fprintf t stderr "error: fopen()\n" [] ;;
        exit env t EXIT_FAILURE)) ;;
  unlock_mutex t.

Definition intercept_with (inside_dlsym inside_fopen : M W unit)
  (t : tid) (c : call) : M W (option Z) :=
  fp0 <- gets (fun s => real s (slot_of c)) ;;
  when (fp0 =? NULL)
    (inside_dlsym ;;
     p <- dlsym env t (symbol (slot_of c)) ;;
     modify (set_real W (slot_of c) p) ;;
     when (p =? NULL)
       (fprintf t stderr (diagnostic (slot_of c)) [] ;;
        exit env t EXIT_FAILURE) ;;
     init_log_file_with inside_fopen t) ;;
  fp <- gets (fun s => real s (slot_of c)) ;;
  r <- call_ptr env t fp c ;;
  m <- gets (fun s => mutex s t) ;;
  when ((m =? 0) && passed c r) (log_call env t c r) ;;
  ret (match c with Cfree _ => None | _ => Some r end).

Definition finalize_with (inside_fclose : M W unit) (t : tid) : M W unit :=
  lf <- gets logFile ;;
  when (negb (lf =? NULL))
    (c <- clock env t ;;
     lf1 <- gets logFile ;;
     fprintf t (file lf1) "EXIT %fs\n" [ASeconds c] ;;
     lf2 <- gets logFile ;;
     inside_fclose ;;
     fclose t (file lf2)).

End Overlap.

Arguments calling {W}.
Arguments init_log_file_with {W}.
Arguments intercept_with {W}.
Arguments finalize_with {W}.

(** A program whose calls do not overlap: the calls in the order they are
    made (each by some thread, each running alone to its end), then the
    end of the program with status 0. *)
Fixpoint run_calls {W} (env : Env W) (cs : list (tid * call))
  : M W unit :=
  match cs with
  | [] => ret tt
  | (t, c) :: cs' => bind (run_call env t c) (fun _ => run_calls env cs')
  end.

Definition process {W} (env : Env W) (t0 : tid) (cs : list (tid * call))
  : M W unit :=
  bind (run_calls env cs) (fun _ => exit env t0 0).

(** A small outside world for examples: every symbol is found, [fopen]
    succeeds, the clock ticks and the allocator hands out fresh addresses
    whatever the request. *)
Definition toy_call (fp : Z) (c : call) (wm : Z * memory)
  : Z * (Z * memory) :=
  let (w, m) := wm in
  match c with
  | Cfree _ => (0, (w + 1, m))
  | Cposix_memalign memptr _ _ =>
      (0, (w + 16, fun a => if a =? memptr then 65536 + w else m a))
  | _ => (65536 + w, (w + 16, m))
  end.

Definition toy : Env Z :=
  mkEnv Z (fun _ w => (4096, w)) (fun _ _ w => (8192, w))
        (fun w => (w, w + 1)) toy_call.

(** No symbol is found. *)
Definition bare : Env Z :=
  mkEnv Z (fun _ w => (NULL, w)) (fun _ _ w => (8192, w))
        (fun w => (w, w + 1)) toy_call.

(** The log file cannot be created. *)
Definition readonly : Env Z :=
  mkEnv Z (fun _ w => (4096, w)) (fun _ _ w => (NULL, w))
        (fun w => (w, w + 1)) toy_call.

Definition toy_init : state Z := initial 0 (fun _ => 0).

(** The state after a first [malloc(8)] by thread 0, which returned the
    address 65536. *)
Definition toy_after_malloc : state Z :=
  final (run_call toy 0%nat (Cmalloc 8) toy_init).

(** The state after that block was passed to [free]. *)
Definition toy_after_free : state Z :=
  final (run_call toy 0%nat (Cfree 65536) toy_after_malloc).

(** The state inside the [fopen] of the first [malloc] of thread 0: the
    guard is held, [real_malloc] is set and the log file is not open yet. *)
Definition toy_inside_fopen : state Z :=
  set_real Z real_malloc 4096 (final (lock_mutex 0%nat toy_init)).

(** An outside like [toy] whose [fopen] returns a new stream each time. *)
Definition fresh : Env Z :=
  mkEnv Z (fun _ w => (4096, w)) (fun _ _ w => (8192 + w, w + 1))
        (fun w => (w, w + 1)) toy_call.

(** What glibc's [fopen] does before it opens the file: [malloc(552)] for
    the [FILE]; the [fopen] this [malloc] may run into does the same. *)
Definition fopen_allocates : M Z unit :=
  bind (intercept_with fresh (ret tt) (calling fresh 0%nat (Cmalloc 552))
          0%nat (Cmalloc 552))
       (fun _ => ret tt).

(** The first call of a process is [calloc(1, 32)]. *)
Definition calloc_first : outcome Z (option Z) :=
  intercept_with fresh (ret tt) fopen_allocates 0%nat (Ccalloc 1 32)
    toy_init.

(** Threads 0 and 1 make the first [malloc] of the process at the same
    time: thread 0 has found [real_malloc] null and has not called [dlsym]
    yet when thread 1 makes its call. *)
Definition two_first_mallocs : outcome Z (option Z) :=
  intercept_with toy (calling toy 1%nat (Cmalloc 8)) (ret tt)
    0%nat (Cmalloc 8) toy_init.

(** * Proofs *)

Section Proofs.

Variable W : Type.
Variable env : Env W.

Implicit Types (s : state W) (t : tid) (c : call) (k : slot).

Ltac unfold_all :=
  cbv [run_call malloc free realloc calloc memalign posix_memalign
       valloc aligned_alloc init_log_file ad_log finalize exit
       lock_mutex unlock_mutex dlsym fopen clock fprintf
       fclose backtrace call_ptr
       bind ret when gets modify terminate undefined is_null_stream
       set_mutex set_logFile set_real set_world set_mem record_event
       mutex logFile real world mem trace final NULL slot_eqb negb andb
       emitted].

(** *** Integer conversions *)

Lemma to_uint_id (z : Z) : 0 <= z <= UINT_MAX -> to_uint z = z.
Proof. unfold to_uint, UINT_MAX. intros H. apply Z.mod_small. lia. Qed.

Lemma to_int_id (z : Z) : 0 <= z <= INT_MAX -> to_int z = z.
Proof.
  unfold to_int, INT_MAX. intros H.
  rewrite Z.mod_small by lia.
  destruct (z <? 2 ^ 31) eqn:E; [reflexivity | apply Z.ltb_ge in E; lia].
Qed.

Lemma to_ulong_id (z : Z) : 0 <= z <= SIZE_MAX -> to_ulong z = z.
Proof. unfold to_ulong, SIZE_MAX. intros H. apply Z.mod_small. lia. Qed.

Lemma to_long_id (z : Z) : 0 <= z <= LONG_MAX -> to_long z = z.
Proof.
  unfold to_long, LONG_MAX. intros H.
  rewrite Z.mod_small by lia.
  destruct (z <? 2 ^ 63) eqn:E; [reflexivity | apply Z.ltb_ge in E; lia].
Qed.

(** One increment followed by one decrement of an [unsigned int]. *)
Lemma to_uint_succ_pred (z : Z) :
  0 <= z <= UINT_MAX -> to_uint (to_uint (z + 1) - 1) = z.
Proof.
  unfold to_uint, UINT_MAX. intros H.
  destruct (Z.eq_dec z (2 ^ 32 - 1)) as [->|Hne].
  - reflexivity.
  - rewrite (Z.mod_small (z + 1)) by lia.
    replace (z + 1 - 1) with z by lia. apply Z.mod_small. lia.
Qed.

(** *** Lists *)

Lemma skipn_length_app {A} (l d : list A) : skipn (List.length l) (l ++ d) = d.
Proof. induction l as [|a l IH]; [reflexivity | exact IH]. Qed.

(** *** Symbolic execution of the interposed functions *)

Ltac stuck x :=
  lazymatch x with
  | env_dlsym _ _ _ => idtac
  | env_fopen _ _ _ _ => idtac
  | env_clock _ _ => idtac
  | env_call _ _ _ _ => idtac
  | (_ =? _) => idtac
  | (_, _) => fail
  | ?y => is_var y
  end.

Ltac split_case :=
  match goal with
  | |- context [match ?x with _ => _ end] =>
      stuck x; let E := fresh "E" in destruct x eqn:E
  end.

Ltac tidy Hm :=
  rewrite ?Nat.eqb_refl, ?(to_uint_succ_pred _ (Hm _)).

Ltac run Hm :=
  unfold_all; tidy Hm;
  repeat (split_case; unfold_all; tidy Hm; try discriminate);
  rewrite <- ?app_assoc, ?skipn_length_app.

Lemma slot_eqb_refl k : slot_eqb k k = true.
Proof. destruct k; reflexivity. Qed.

Lemma slot_eqb_eq a b : slot_eqb a b = true <-> a = b.
Proof. destruct a, b; simpl; split; intros H; congruence. Qed.

Lemma symbol_eqb a b : String.eqb (symbol a) (symbol b) = slot_eqb a b.
Proof. destruct a, b; reflexivity. Qed.

(** The eight functions are the instances of the scheme. *)
Lemma run_call_intercept t c s : run_call env t c s = intercept env t c s.
Proof.
  destruct s as [mx lf rl w m tr].
  destruct c; cbv [intercept log_call passed slot_of symbol diagnostic];
    unfold_all;
    repeat (split_case; unfold_all; try discriminate); reflexivity.
Qed.

Ltac unfold_scheme :=
  cbv [intercept log_call passed init_log_file ad_log finalize exit
       lock_mutex unlock_mutex dlsym fopen clock fprintf fclose backtrace
       call_ptr bind ret when gets modify terminate undefined is_null_stream
       set_mutex set_logFile set_real set_world set_mem record_event
       mutex logFile real world mem trace final NULL negb andb emitted].

Ltac tidy_scheme Hm :=
  rewrite ?Nat.eqb_refl, ?slot_eqb_refl, ?(to_uint_succ_pred _ (Hm _)).

Ltac exec Hm :=
  unfold_scheme; tidy_scheme Hm;
  repeat (split_case; unfold_scheme; tidy_scheme Hm; try discriminate);
  rewrite <- ?app_assoc, ?skipn_length_app.

(** A set pointer with the log file still closed does not occur. *)
Ltac absurd_state Hc :=
  exfalso;
  match goal with
  | H1 : (?rl ?k =? 0) = false, H2 : (?lf =? 0) = true |- _ =>
      apply (Hc k); [apply Z.eqb_neq; exact H1 | apply Z.eqb_eq; exact H2]
  end.

Ltac use_tests :=
  unfold NULL in *;
  repeat match goal with
         | H : (_ =? _) = _ |- _ => rewrite H
         end.

Ltac by_test :=
  unfold NULL in *;
  first [ apply Z.eqb_neq; assumption
        | apply Z.eqb_eq; assumption ].

Ltac conj_split := repeat match goal with |- _ /\ _ => split end.

Lemma wf_initial w m : wf (initial (W:=W) w m).
Proof.
  split; simpl; intros.
  - unfold UINT_MAX. lia.
  - congruence.
Qed.

(** *** The guard *)

(** C7: [lock_mutex] adds one to the counter of the calling thread and
    returns its previous value, [unlock_mutex] subtracts one, and one
    [lock_mutex] followed by one [unlock_mutex] leaves every counter as it
    was.  The counter is an [unsigned int] and the result an [int]: the
    arithmetic is that of C, exact as long as it stays in range. *)
Theorem lock_unlock_mutex_contract t s :
  0 <= mutex s t <= UINT_MAX ->
  (exists s1,
      lock_mutex t s = Returns (to_int (mutex s t)) s1 /\
      to_uint (to_int (mutex s t)) = mutex s t /\
      (mutex s t <= INT_MAX -> to_int (mutex s t) = mutex s t) /\
      mutex s1 t = to_uint (mutex s t + 1) /\
      (mutex s t < UINT_MAX -> mutex s1 t = mutex s t + 1) /\
      (forall t', t' <> t -> mutex s1 t' = mutex s t') /\
      trace s1 = trace s) /\
  (exists s2,
      unlock_mutex t s = Returns tt s2 /\
      mutex s2 t = to_uint (mutex s t - 1) /\
      (0 < mutex s t -> mutex s2 t = mutex s t - 1) /\
      (forall t', t' <> t -> mutex s2 t' = mutex s t') /\
      trace s2 = trace s) /\
  (exists s3,
      bind (lock_mutex t) (fun _ => unlock_mutex t) s = Returns tt s3 /\
      (forall t', mutex s3 t' = mutex s t') /\
      logFile s3 = logFile s /\ real s3 = real s /\ world s3 = world s /\
      mem s3 = mem s /\ trace s3 = trace s).
Proof.
  intros Hr.
  assert (Hne : forall t', t' <> t -> Nat.eqb t' t = false)
    by (intros t' H; apply Nat.eqb_neq; exact H).
  split; [|split].
  - eexists. split; [reflexivity|]. simpl. rewrite Nat.eqb_refl.
    repeat split.
    + unfold to_int, to_uint, UINT_MAX in *.
      rewrite (Z.mod_small (mutex s t)) by lia.
      destruct (mutex s t <? 2 ^ 31).
      * apply Z.mod_small. lia.
      * replace (mutex s t - 2 ^ 32) with (mutex s t + (-1) * 2 ^ 32) by lia.
        rewrite Z.mod_add by lia. apply Z.mod_small. lia.
    + intros H. apply to_int_id. lia.
    + intros H. apply to_uint_id. lia.
    + intros t' H. rewrite (Hne t' H). reflexivity.
  - eexists. split; [reflexivity|]. simpl. rewrite Nat.eqb_refl.
    repeat split.
    + intros H. apply to_uint_id. lia.
    + intros t' H. rewrite (Hne t' H). reflexivity.
  - eexists. split; [reflexivity|]. simpl.
    repeat split.
    intros t'. destruct (Nat.eqb t' t) eqn:E; [|reflexivity].
    apply Nat.eqb_eq in E. subst t'. rewrite Nat.eqb_refl.
    apply to_uint_succ_pred. exact Hr.
Qed.

(** *** One call *)

(** C1, as amended: a call that returns has written its record if and only
    if [mutex] was zero on entry and the wrapped function reported success:
    one record, two for [realloc] (its own and the [free] of the old
    pointer), none otherwise; a call that ends the process has written
    none. *)
Theorem emission_policy t c s :
  wf s ->
  match run_call env t c s with
  | Returns r s' =>
      List.length (records (emitted s s')) =
        if (mutex s t =? 0) && succeeded c r then records_per_call c
        else 0%nat
  | Exits n s' => records (emitted s s') = []
  | Faults _ => False
  end.
Proof.
  intros [Hm Hc]. rewrite run_call_intercept.
  destruct s as [mx lf rl w m tr]. simpl in Hm, Hc.
  exec Hm.
  all: try absurd_state Hc.
  all: cbn [succeeded records_per_call]; use_tests.
  all: reflexivity.
Qed.

(** C2: a [realloc] entered with [mutex = 0] whose wrapped call returns a
    non-null pointer writes two blocks to the log file and nothing else:
    the block of the [realloc], with the requested size and the new
    address, then the block of a [free] of size 0 for the pointer that was
    passed in. *)
Theorem realloc_two_records t ptr size s nptr s' :
  wf s ->
  mutex s t = 0 ->
  0 <= size <= SIZE_MAX ->
  realloc env t ptr size s = Returns nptr s' ->
  nptr <> NULL ->
  exists clk1 clk2,
    log_lines (logFile s') (emitted s s') =
      event_block (logFile s') clk1 "realloc" size (to_long nptr) ++
      event_block (logFile s') clk2 "free" 0 (to_long ptr) /\
    records (emitted s s') =
      [("realloc", size, to_long nptr); ("free", 0, to_long ptr)].
Proof.
  intros [Hm Hc] H0 Hsize Hrun Hnptr.
  destruct s as [mx lf rl w m tr]. simpl in Hm, Hc, H0.
  revert Hrun. run Hm.
  all: try absurd_state Hc.
  all: intros Hrun; inversion Hrun; subst; clear Hrun.
  all: try (exfalso; unfold NULL in *;
            match goal with H : (_ =? _) = _ |- _ =>
              first [ apply Z.eqb_eq in H; congruence
                    | apply Z.eqb_neq in H; congruence ] end).
  all: unfold emitted, log_lines, records; cbn [trace logFile].
  all: rewrite <- ?app_assoc, ?skipn_length_app.
  all: cbn -[to_ulong to_long Z.eqb].
  all: rewrite ?Z.eqb_refl, (to_ulong_id _ Hsize).
  all: change (to_ulong 0) with 0.
  all: do 2 eexists; split; reflexivity.
Qed.

(** C3, as amended: [dlsym] is called with [mutex] as it was when the
    function was entered, zero in an outermost call: the guard is not taken
    around the lookup, nor around its diagnostic, the call through the
    pointer or what [finalize] does after a failed lookup.  The guard is
    held only around the [fopen] of [init_log_file] and its diagnostic,
    which run one level up, and around the five calls of [ad_log], which
    run at level 1. *)
Theorem guard_during_resolution t c s :
  wf s ->
  match run_call env t c s with
  | Returns _ s' => Forall (guard_at false (mutex s t)) (emitted s s')
  | Exits _ s' => Forall (guard_at true (mutex s t)) (emitted s s')
  | Faults _ => False
  end /\
  (mutex s t < UINT_MAX -> to_uint (mutex s t + 1) <> 0).
Proof.
  intros [Hm Hc]. split.
  - rewrite run_call_intercept.
    destruct s as [mx lf rl w m tr]. simpl in Hm, Hc.
    exec Hm.
    all: try absurd_state Hc.
    all: repeat (apply Forall_cons;
                 [unfold guard_at; cbn [what depth];
                  first [ reflexivity
                        | destruct c; reflexivity
                        | match goal with
                          | H : (?a =? 0) = true |- to_uint (?a + 1) = _ =>
                              apply Z.eqb_eq in H; rewrite H; reflexivity
                          end ]
                 |]).
    all: apply Forall_nil.
  - intros H. rewrite to_uint_id; [|specialize (Hm t); lia].
    specialize (Hm t). lia.
Qed.

(** C5: when the pointer is not yet set and [dlsym] does not find the
    symbol, the call writes the diagnostic to [stderr] right after the
    lookup and ends the process with [EXIT_FAILURE], which is not zero; no
    call through a function pointer is made. *)
Theorem lookup_failure_is_fatal t c s :
  real s (slot_of c) = NULL ->
  fst (env_dlsym env (symbol (slot_of c)) (world s)) = NULL ->
  exists s' rest,
    run_call env t c s = Exits EXIT_FAILURE s' /\
    EXIT_FAILURE <> 0 /\
    emitted s s' =
      mkEntry t (mutex s t) (EDlsym (symbol (slot_of c)) NULL)
      :: mkEntry t (mutex s t) (EFprintf stderr (diagnostic (slot_of c)) [])
      :: rest /\
    calls (emitted s s') = [].
Proof.
  intros H1 H2. rewrite run_call_intercept.
  destruct s as [mx lf rl w m tr]. simpl in H1, H2.
  unfold_scheme. unfold NULL in H1, H2. rewrite H1, Z.eqb_refl.
  destruct (env_dlsym env (symbol (slot_of c)) w) as [p w1].
  simpl in H2. subst p. change (0 =? 0) with true. unfold_scheme.
  destruct (lf =? 0) eqn:Elf; unfold_scheme.
  - do 2 eexists. split; [reflexivity|].
    unfold emitted; cbn [trace]; rewrite <- ?app_assoc, ?skipn_length_app.
    repeat split; try reflexivity. unfold EXIT_FAILURE. lia.
  - destruct (env_clock env w1) as [clk w2]. unfold_scheme.
    repeat (rewrite Elf; unfold_scheme).
    do 2 eexists. split; [reflexivity|].
    unfold emitted; cbn [trace]; rewrite <- ?app_assoc, ?skipn_length_app.
    repeat split; try reflexivity. unfold EXIT_FAILURE. lia.
Qed.

(** A state in which the call [c] of thread [t] cannot go wrong: the
    counters are in range, and if the call is outermost and its pointer is
    set then the log file is open. *)
Ltac absurd_entry Hc :=
  exfalso; apply Hc; by_test.

(** C8: a call returns whenever its pointer is set, or its lookup succeeds
    and the log file is open or [fopen] succeeds.  It has then made exactly
    one call through its function pointer, with the arguments it was given,
    and hands back what that call returned; the memory of the program,
    [*memptr] included, is as the wrapped function left it, whether a
    record was written or not.  A call ends the process only when its
    pointer was unset and the lookup or the [fopen] failed; it has then
    made no call through the pointer. *)
Theorem result_passed_through t c s :
  (forall t', 0 <= mutex s t' <= UINT_MAX) ->
  (mutex s t = 0 -> real s (slot_of c) <> NULL -> logFile s <> NULL) ->
  match run_call env t c s with
  | Returns r s' =>
      exists res w2 m2,
        env_call env (real s' (slot_of c)) c
                 (world_before_call env c s, mem s) = (res, (w2, m2)) /\
        real s' (slot_of c) <> NULL /\
        r = ret_of c res /\
        mem s' = m2 /\
        calls (emitted s s') = [ECall (real s' (slot_of c)) c res]
  | Exits n s' =>
      n = EXIT_FAILURE /\
      real s (slot_of c) = NULL /\
      (fst (env_dlsym env (symbol (slot_of c)) (world s)) = NULL \/
       (logFile s = NULL /\
        fst (env_fopen env LOG_FILE_NAME "w"
               (snd (env_dlsym env (symbol (slot_of c)) (world s)))) =
          NULL)) /\
      calls (emitted s s') = [] /\ mem s' = mem s
  | Faults _ => False
  end.
Proof.
  intros Hm Hc. rewrite run_call_intercept.
  destruct s as [mx lf rl w m tr]. simpl in Hm, Hc.
  exec Hm.
  all: try absurd_entry Hc.
  all: unfold world_before_call; cbn [real logFile world].
  all: unfold NULL in *;
    repeat match goal with
           | H : (_ =? _) = true |- _ => rewrite H
           | H : (_ =? _) = false |- _ => rewrite H
           | H : env_dlsym _ _ _ = _ |- _ => rewrite H
           | H : env_fopen _ _ _ _ = _ |- _ => rewrite H
           end; cbn [fst snd].
  all: try (do 3 eexists; split; [eassumption|];
            repeat split; try reflexivity; by_test).
  all: conj_split; try reflexivity; try by_test.
  all: first [ left; by_test
             | right; split;
               [ by_test
               | match goal with
                 | H : env_fopen _ _ _ _ = _ |- _ => rewrite H
                 end; cbn [fst]; by_test ] ].
Qed.

(** C10, as amended: the size in the record of a [calloc] is the product
    [size * nmemb] as computed in [size_t], that is modulo 2^64; it is the
    exact product whenever that fits in a [size_t]. *)
Theorem calloc_logged_size t nmemb size s ptr s' :
  wf s ->
  mutex s t = 0 ->
  calloc env t nmemb size s = Returns ptr s' ->
  ptr <> NULL ->
  records (emitted s s') =
    [("calloc", (nmemb * size) mod 2 ^ 64, to_long ptr)] /\
  (0 <= nmemb * size <= SIZE_MAX ->
   records (emitted s s') = [("calloc", nmemb * size, to_long ptr)]).
Proof.
  intros [Hm Hc] H0 Hrun Hptr.
  assert (Hrec : records (emitted s s') =
                 [("calloc", (nmemb * size) mod 2 ^ 64, to_long ptr)]).
  { destruct s as [mx lf rl w m tr]. simpl in Hm, Hc, H0.
    revert Hrun. run Hm.
    all: try absurd_state Hc.
    all: intros Hrun; inversion Hrun; subst; clear Hrun.
    all: try (exfalso; unfold NULL in *;
              match goal with H : (_ =? _) = _ |- _ =>
                first [ apply Z.eqb_eq in H; congruence
                      | apply Z.eqb_neq in H; congruence ] end).
    all: unfold emitted, records; cbn [trace].
    all: rewrite <- ?app_assoc, ?skipn_length_app.
    all: cbn -[to_ulong to_long to_size_t Z.mul].
    all: unfold to_ulong, to_size_t; rewrite Z.mod_mod by lia.
    all: rewrite (Z.mul_comm size nmemb); reflexivity. }
  split; [exact Hrec|].
  intros Hfit. rewrite Hrec. rewrite Z.mod_small; [reflexivity|].
  unfold SIZE_MAX in Hfit. lia.
Qed.

(** *** What one call does to the state and the trace *)

Lemma slot_eqb_sym a b : slot_eqb a b = slot_eqb b a.
Proof. destruct a, b; reflexivity. Qed.

Ltac know_open Hc :=
  match goal with
  | H : (_ ?k =? 0) = false |- _ =>
      match type of Hc with
      | forall _, _ -> ?lf <> _ =>
          let Hlf := fresh "Hlf" in
          assert (Hlf : (lf =? 0) = false)
            by (apply Z.eqb_neq; apply (Hc k); apply Z.eqb_neq; exact H)
      end
  end.

Lemma step_returns t c s :
  wf s ->
  match run_call env t c s with
  | Returns r s' =>
      trace s' = trace s ++ emitted s s' /\
      exit_lines (emitted s s') = [] /\
      closes (emitted s s') = [] /\
      logFile s' <> NULL /\
      opens (emitted s s') = (if logFile s =? NULL then [logFile s'] else []) /\
      (logFile s <> NULL -> logFile s' = logFile s) /\
      real s' (slot_of c) <> NULL /\
      (forall k, real s' k =
                 if slot_eqb k (slot_of c) then real s' (slot_of c)
                 else real s k) /\
      (real s (slot_of c) <> NULL ->
       real s' (slot_of c) = real s (slot_of c)) /\
      (forall k, queries k (emitted s s') =
                 if slot_eqb k (slot_of c) && (real s (slot_of c) =? NULL)
                 then [real s' (slot_of c)] else []) /\
      (forall t', mutex s' t' = mutex s t') /\
      Forall (uses_slot s') (emitted s s')
  | Exits _ _ => True
  | Faults _ => False
  end.
Proof.
  intros [Hm Hc]. rewrite run_call_intercept.
  destruct s as [mx lf rl w m tr]. simpl in Hm, Hc.
  exec Hm.
  all: try exact I.
  all: try absurd_state Hc.
  all: try know_open Hc.
  all: try congruence.
  all: cbn [slot_of app] in *.
  all: conj_split.
  all: try reflexivity.
  all: try by_test.
  all: try (use_tests; reflexivity).
  all: try (intros H; first [reflexivity | exfalso; apply H; by_test]).
  all: try (intros k; unfold queries; cbn [flat_map app query_of what];
            rewrite ?symbol_eqb, ?(slot_eqb_sym _ k); use_tests;
            destruct (slot_eqb k _); reflexivity).
  all: try (intros k; destruct (slot_eqb k _) eqn:Ek;
            [apply slot_eqb_eq in Ek; subst; reflexivity | reflexivity]).
  all: try (intros t'; destruct (Nat.eqb t' t) eqn:Et;
            [apply Nat.eqb_eq in Et; subst; reflexivity | reflexivity]).
  all: try (repeat (apply Forall_cons;
                    [unfold uses_slot; cbn [what real slot_of];
                     rewrite ?slot_eqb_refl;
                     first [exact I | split; [reflexivity | by_test]] |]);
            apply Forall_nil).
Qed.

Lemma step_exits t c s :
  wf s ->
  match run_call env t c s with
  | Exits n s' =>
      n = EXIT_FAILURE /\
      trace s' = trace s ++ emitted s s' /\
      real s (slot_of c) = NULL /\
      ((logFile s' = logFile s /\
        (forall k, real s' k = real s k) /\
        exists fin,
          emitted s s' =
            mkEntry t (mutex s t) (EDlsym (symbol (slot_of c)) NULL)
            :: mkEntry t (mutex s t)
                 (EFprintf stderr (diagnostic (slot_of c)) [])
            :: fin /\
          (if logFile s =? NULL then fin = []
           else exists clk,
               fin = finalize_entries t (mutex s t) (logFile s) clk)) \/
       (logFile s = NULL /\ logFile s' = NULL /\
        exists p,
          p <> NULL /\
          (forall k, real s' k = if slot_eqb k (slot_of c) then p
                                 else real s k) /\
          emitted s s' =
            [mkEntry t (mutex s t) (EDlsym (symbol (slot_of c)) p);
             mkEntry t (to_uint (mutex s t + 1))
               (EFopen LOG_FILE_NAME "w" NULL);
             mkEntry t (to_uint (mutex s t + 1))
               (EFprintf stderr "error: fopen()\n" [])]))
  | _ => True
  end.
Proof.
  intros [Hm Hc]. rewrite run_call_intercept.
  destruct s as [mx lf rl w m tr]. simpl in Hm, Hc.
  exec Hm.
  all: try exact I.
  all: try know_open Hc.
  all: try congruence.
  all: cbn [app] in *.
  all: repeat match goal with
              | H : (?z =? 0) = true |- _ =>
                  apply Z.eqb_eq in H; first [subst z | rewrite H in *]
              end.
  - conj_split; try reflexivity. left. conj_split; try reflexivity.
    + intros k. destruct (slot_eqb k _) eqn:Ek; [|reflexivity].
      apply slot_eqb_eq in Ek. subst k. symmetry. assumption.
    + eexists. split; reflexivity.
  - conj_split; try reflexivity. left. conj_split; try reflexivity.
    + intros k. destruct (slot_eqb k _) eqn:Ek; [|reflexivity].
      apply slot_eqb_eq in Ek. subst k. symmetry. assumption.
    + eexists. split; [reflexivity|]. eexists. reflexivity.
  - conj_split; try reflexivity. right. conj_split; try reflexivity.
    match goal with H : (?z =? 0) = false |- _ => exists z end.
    conj_split; [by_test | reflexivity | reflexivity].
Qed.

(** The end of the process: what [finalize] does. *)
Lemma exit_spec t n s :
  exists s',
    exit env (A:=unit) t n s = Exits n s' /\
    logFile s' = logFile s /\
    real s' = real s /\
    if logFile s =? NULL then trace s' = trace s
    else exists clk,
        trace s' =
          trace s ++ finalize_entries t (mutex s t) (logFile s) clk.
Proof.
  destruct s as [mx lf rl w m tr].
  unfold_scheme. destruct (lf =? 0) eqn:Elf; unfold_scheme.
  - eexists. conj_split; reflexivity.
  - destruct (env_clock env w) as [clk w1]. unfold_scheme.
    repeat (rewrite Elf; unfold_scheme).
    eexists. conj_split; try reflexivity.
    exists clk. rewrite <- !app_assoc. reflexivity.
Qed.

(** ** Further properties *)

Lemma step_log t c s :
  wf s ->
  match run_call env t c s with
  | Returns r s' =>
      exists res,
        calls (emitted s s') = [ECall (real s' (slot_of c)) c res] /\
        r = ret_of c res /\
        forwarded (emitted s s') = [(t, c)] /\
        records (emitted s s') =
          (if (mutex s t =? 0) && passed c res
           then expected_records c res (mem s') else []) /\
        List.length (stamps (emitted s s')) =
          List.length (records (emitted s s')) /\
        (forall lf,
            log_lines lf (emitted s s') =
              if lf =? logFile s'
              then flat_map (block_lines lf)
                     (combine (stamps (emitted s s'))
                        (records (emitted s s')))
              else [])
  | Exits n s' => True
  | Faults _ => False
  end.
Proof.
  intros [Hm Hc]. rewrite run_call_intercept.
  destruct s as [mx lf0 rl w m tr]. simpl in Hm, Hc.
  exec Hm.
  all: try exact I.
  all: try absurd_state Hc.
  all: eexists; conj_split.
  all: try reflexivity.
  all: try (use_tests; reflexivity).
  all: try (intros lf; unfold log_lines; cbn [flat_map app writes_to what];
            rewrite ?(Z.eqb_sym lf);
            match goal with
            | |- context [?a =? lf] =>
                let El := fresh "El" in
                destruct (a =? lf) eqn:El;
                [apply Z.eqb_eq in El; subst lf | ]
            end; reflexivity).
Qed.

Lemma succeeded_ret_of c res : succeeded c (ret_of c res) = passed c res.
Proof. destruct c; reflexivity. Qed.

Lemma expected_value c res m :
  expected_records c (value (ret_of c res)) m = expected_records c res m.
Proof. destruct c; reflexivity. Qed.

(** X1: the record of every function.  A call entered with [mutex = 0]
    whose wrapped call reported success writes the records of
    [expected_records]: the allocator name, the [size] argument (never the
    alignment; the wrapped product for [calloc]) and the returned address,
    for [posix_memalign] the pointer found at [*memptr] after the call, for
    [free] size 0 and the pointer passed in, null included; any other call
    that returns writes none. *)
Theorem logged_records t c s :
  wf s ->
  match run_call env t c s with
  | Returns r s' =>
      records (emitted s s') =
        if (mutex s t =? 0) && succeeded c r
        then expected_records c (value r) (mem s') else []
  | _ => True
  end.
Proof.
  intros Hwf. pose proof (step_log t c s Hwf) as H.
  destruct (run_call env t c s) as [r s'|n s'|s']; try exact I.
  destruct H as (res & _ & -> & _ & Hrec & _).
  rewrite succeeded_ret_of, expected_value. exact Hrec.
Qed.

(** X2: what a call that returns leaves behind.  The guard counter of every
    thread is as it was; no function pointer changed except, if it was
    unset, the one of the function called, which is now set; the log file
    is open, and it is the same stream if it was open before; the state is
    again well formed. *)
Theorem call_frame t c s :
  wf s ->
  match run_call env t c s with
  | Returns r s' =>
      wf s' /\
      (forall t', mutex s' t' = mutex s t') /\
      (forall k, real s k <> NULL -> real s' k = real s k) /\
      (forall k, k <> slot_of c -> real s' k = real s k) /\
      real s' (slot_of c) <> NULL /\
      logFile s' <> NULL /\
      (logFile s <> NULL -> logFile s' = logFile s)
  | _ => True
  end.
Proof.
  intros Hwf. pose proof (step_returns t c s Hwf) as H.
  destruct (run_call env t c s) as [r s'|n s'|s']; try exact I.
  destruct H as (_ & _ & _ & Hlf & _ & Hlf' & Hk0 & Hrl & Hrl0 & _ & Hmx & _).
  conj_split; try assumption.
  - split.
    + intros t'. rewrite Hmx. apply (proj1 Hwf).
    + intros k _. exact Hlf.
  - intros k Hk. rewrite Hrl. destruct (slot_eqb k (slot_of c)) eqn:Ek.
    + apply slot_eqb_eq in Ek. subst k. exact (Hrl0 Hk).
    + reflexivity.
  - intros k Hk. rewrite Hrl. destruct (slot_eqb k (slot_of c)) eqn:Ek.
    + apply slot_eqb_eq in Ek. contradiction.
    + reflexivity.
Qed.

Lemma init_open t s :
  0 <= mutex s t <= UINT_MAX ->
  logFile s <> NULL ->
  exists s',
    init_log_file env t s = Returns tt s' /\
    trace s' = trace s /\ logFile s' = logFile s /\ world s' = world s /\
    real s' = real s /\ mem s' = mem s /\
    forall t', mutex s' t' = mutex s t'.
Proof.
  intros Hr Hlf. destruct s as [mx lf rl w m tr]. simpl in Hr, Hlf.
  unfold_scheme. apply Z.eqb_neq in Hlf. unfold NULL in Hlf. rewrite Hlf.
  unfold_scheme. rewrite Nat.eqb_refl, (to_uint_succ_pred _ Hr).
  eexists. conj_split; try reflexivity.
  intros t'. cbn. destruct (Nat.eqb t' t) eqn:Et; [|reflexivity].
  apply Nat.eqb_eq in Et. subst t'. reflexivity.
Qed.

Lemma init_returns t s s1 :
  0 <= mutex s t <= UINT_MAX ->
  init_log_file env t s = Returns tt s1 ->
  logFile s1 <> NULL /\ forall t', mutex s1 t' = mutex s t'.
Proof.
  intros Hr. destruct s as [mx lf rl w m tr]. simpl in Hr.
  unfold_scheme. rewrite ?Nat.eqb_refl.
  repeat (split_case; unfold_scheme; rewrite ?Nat.eqb_refl;
          try discriminate).
  all: rewrite ?(to_uint_succ_pred _ Hr).
  all: intros Hrun; inversion Hrun; subst; clear Hrun; cbn [logFile mutex].
  all: split; [by_test|].
  all: intros t'; destruct (Nat.eqb t' t) eqn:Et; [|reflexivity].
  all: apply Nat.eqb_eq in Et; subst t'; reflexivity.
Qed.

(** X3: [init_log_file] is idempotent.  After a call of it that returned,
    the log file is open, and a second call returns without any call to the
    outside ([fopen] is not called again) and without changing the state. *)
Theorem init_log_file_idempotent t s s1 :
  0 <= mutex s t <= UINT_MAX ->
  init_log_file env t s = Returns tt s1 ->
  logFile s1 <> NULL /\
  exists s2,
    init_log_file env t s1 = Returns tt s2 /\
    trace s2 = trace s1 /\ logFile s2 = logFile s1 /\
    world s2 = world s1 /\ real s2 = real s1 /\ mem s2 = mem s1 /\
    forall t', mutex s2 t' = mutex s1 t'.
Proof.
  intros Hr Hrun. destruct (init_returns t s s1 Hr Hrun) as [Hlf Hmx].
  split; [exact Hlf|]. apply init_open; [|exact Hlf].
  rewrite Hmx. exact Hr.
Qed.

(** X4: under the guard a call stays away from the log.  A call entered
    with [mutex] not zero, in any state of the pointers and of the log file
    (also between the setting of a pointer and the opening of the file, as
    inside the [fopen] of [init_log_file]), never writes to a null stream
    nor calls a null pointer, and if it returns it has written no record
    and nothing at all to any file. *)
Theorem nested_call_is_safe t c s :
  (forall t', 0 <= mutex s t' <= UINT_MAX) ->
  mutex s t <> 0 ->
  match run_call env t c s with
  | Returns r s' =>
      records (emitted s s') = [] /\
      forall lf, log_lines lf (emitted s s') = []
  | Exits n s' => n = EXIT_FAILURE
  | Faults _ => False
  end.
Proof.
  intros Hm Hne. rewrite run_call_intercept.
  destruct s as [mx lf0 rl w m tr]. simpl in Hm, Hne.
  exec Hm.
  all: try reflexivity.
  all: try (exfalso; apply Hne; apply Z.eqb_eq; assumption).
  all: split; [reflexivity | intros lf; reflexivity].
Qed.

(** X5: opening the log does not look at the guard.  Whatever the value of
    [mutex], a call whose pointer is unset while the log file is closed
    calls [fopen] for [MemoryLog] itself as soon as its lookup succeeds; so
    does a call made from inside the [fopen] of another call's
    [init_log_file], where the file is not open yet. *)
Theorem unset_pointer_opens_log t c s :
  (forall t', 0 <= mutex s t' <= UINT_MAX) ->
  real s (slot_of c) = NULL ->
  logFile s = NULL ->
  fst (env_dlsym env (symbol (slot_of c)) (world s)) <> NULL ->
  opens (emitted s (final (run_call env t c s))) =
    [fst (env_fopen env LOG_FILE_NAME "w"
            (snd (env_dlsym env (symbol (slot_of c)) (world s))))].
Proof.
  intros Hm Hk Hlf Hp. rewrite run_call_intercept.
  destruct s as [mx lf0 rl w m tr]. simpl in Hm, Hk, Hlf, Hp.
  unfold NULL in *. subst lf0.
  unfold_scheme. rewrite Hk. change (0 =? 0) with true. unfold_scheme.
  destruct (env_dlsym env (symbol (slot_of c)) w) as [p w1]. simpl in Hp.
  apply Z.eqb_neq in Hp. unfold_scheme. rewrite Hp.
  exec Hm.
  all: cbn [snd];
    match goal with
    | H : env_fopen _ _ _ _ = _ |- _ => rewrite H
    end; reflexivity.
Qed.

Lemma finalize_spec t s :
  logFile s <> NULL ->
  exists s1 clk,
    finalize env t s = Returns tt s1 /\
    trace s1 = trace s ++ finalize_entries t (mutex s t) (logFile s) clk /\
    logFile s1 = logFile s /\ real s1 = real s /\ mutex s1 = mutex s /\
    mem s1 = mem s.
Proof.
  intros Hlf. destruct s as [mx lf rl w m tr]. simpl in Hlf.
  apply Z.eqb_neq in Hlf. unfold NULL in Hlf.
  unfold_scheme. rewrite Hlf. unfold_scheme.
  destruct (env_clock env w) as [clk w1]. unfold_scheme.
  repeat (rewrite Hlf; unfold_scheme).
  do 2 eexists. conj_split; try reflexivity.
  cbn [trace logFile mutex]. rewrite <- !app_assoc. reflexivity.
Qed.

(** X9: [finalize] closes the stream and leaves [logFile] set.  A call
    made after it (from a destructor or exit handler that runs later) still
    finds the pointer to the closed stream, and if it is outermost and
    succeeds it writes its block to that stream. *)
Theorem write_after_finalize t s :
  wf s ->
  logFile s <> NULL ->
  exists s1,
    finalize env t s = Returns tt s1 /\
    closes (emitted s s1) = [file (logFile s)] /\
    logFile s1 = logFile s /\
    forall t' c,
      match run_call env t' c s1 with
      | Returns r s2 =>
          logFile s2 = logFile s /\
          records (emitted s1 s2) =
            (if (mutex s t' =? 0) && succeeded c r
             then expected_records c (value r) (mem s2) else []) /\
          log_lines (logFile s) (emitted s1 s2) =
            flat_map (block_lines (logFile s))
              (combine (stamps (emitted s1 s2)) (records (emitted s1 s2)))
      | _ => True
      end.
Proof.
  intros Hwf Hlf.
  destruct (finalize_spec t s Hlf) as (s1 & clk & Hrun & Htr & Hlf1 & Hrl & Hmx & _).
  exists s1. conj_split; [exact Hrun | | exact Hlf1 |].
  - unfold emitted. rewrite Htr, skipn_length_app. reflexivity.
  - intros t' c.
    assert (Hwf1 : wf s1).
    { split.
      - intros t0. rewrite Hmx. apply (proj1 Hwf).
      - intros k. rewrite Hrl, Hlf1. apply (proj2 Hwf). }
    pose proof (step_log t' c s1 Hwf1) as H1.
    pose proof (step_returns t' c s1 Hwf1) as H2.
    destruct (run_call env t' c s1) as [r s2|n s2|s2]; try exact I.
    destruct H1 as (res & _ & -> & _ & Hrec & _ & Hlog).
    destruct H2 as (_ & _ & _ & _ & _ & Hkeep & _).
    assert (Hlf2 : logFile s2 = logFile s).
    { rewrite <- Hlf1. apply Hkeep. rewrite Hlf1. exact Hlf. }
    conj_split.
    + exact Hlf2.
    + rewrite succeeded_ret_of, expected_value, <- Hmx. exact Hrec.
    + rewrite Hlog, Hlf2, Z.eqb_refl. reflexivity.
Qed.

(** *** The end of the process *)

(** C4, as amended: when the process exits, [finalize], if the log file is
    open, reads the clock, writes the [EXIT] line with that value to the
    log file and calls [fclose] on it, once each and in this order, whether
    or not a record was ever written; if the log file was never opened (as
    in a process that never calls an interposed function) it writes nothing
    and closes nothing.  In both cases it leaves [logFile], the function
    pointers and the guard as they are. *)
Theorem finalize_once t n s :
  exists s',
    finalize env t s = Returns tt s' /\
    exit env (A:=unit) t n s = Exits n s' /\
    logFile s' = logFile s /\ real s' = real s /\ mutex s' = mutex s /\
    mem s' = mem s /\
    (logFile s <> NULL ->
     emitted s s' =
       finalize_entries t (mutex s t) (logFile s)
         (fst (env_clock env (world s))) /\
     exit_lines (emitted s s') = [fst (env_clock env (world s))] /\
     closes (emitted s s') = [file (logFile s)]) /\
    (logFile s = NULL -> emitted s s' = [] /\ world s' = world s).
Proof.
  destruct s as [mx lf rl w m tr].
  unfold_scheme. destruct (lf =? 0) eqn:Elf; unfold_scheme.
  - eexists. conj_split; try reflexivity.
    + intros H. exfalso. apply H. apply Z.eqb_eq. exact Elf.
    + intros _. rewrite <- (app_nil_r tr) at 2.
      rewrite skipn_length_app. split; reflexivity.
  - destruct (env_clock env w) as [clk w1]. unfold_scheme.
    repeat (rewrite Elf; unfold_scheme).
    eexists. conj_split; try reflexivity.
    + intros _. rewrite <- !app_assoc, skipn_length_app.
      conj_split; reflexivity.
    + intros H. apply Z.eqb_neq in Elf. contradiction.
Qed.

(** *** The lookup *)

(** C9, as amended: a call that finds its function pointer set makes no
    lookup at all, changes no function pointer and goes through the
    address it found, however many such calls are made; a call that finds
    its pointer unset asks [dlsym] once, for its own symbol, and stores the
    answer in its own pointer.  (Calls that overlap with a first call, from
    another thread or from inside the lookup, can find the pointer unset as
    well: see [two_first_mallocs].) *)
Theorem resolution_cached t c s :
  (forall t', 0 <= mutex s t' <= UINT_MAX) ->
  (mutex s t = 0 -> real s (slot_of c) <> NULL -> logFile s <> NULL) ->
  match run_call env t c s with
  | Returns r s' =>
      (forall k,
          queries k (emitted s s') =
            if slot_eqb k (slot_of c) && (real s (slot_of c) =? NULL)
            then [fst (env_dlsym env (symbol (slot_of c)) (world s))]
            else []) /\
      (forall k,
          real s' k =
            if slot_eqb k (slot_of c) && (real s (slot_of c) =? NULL)
            then fst (env_dlsym env (symbol (slot_of c)) (world s))
            else real s k) /\
      real s' (slot_of c) <> NULL /\
      exists res, calls (emitted s s') = [ECall (real s' (slot_of c)) c res]
  | Exits n s' =>
      real s (slot_of c) = NULL /\
      (forall k,
          queries k (emitted s s') =
            if slot_eqb k (slot_of c)
            then [fst (env_dlsym env (symbol (slot_of c)) (world s))]
            else []) /\
      (forall k,
          real s' k =
            if slot_eqb k (slot_of c)
            then fst (env_dlsym env (symbol (slot_of c)) (world s))
            else real s k)
  | Faults _ => False
  end.
Proof.
  intros Hm Hc. rewrite run_call_intercept.
  destruct s as [mx lf rl w m tr]. simpl in Hm, Hc.
  exec Hm.
  all: try absurd_entry Hc.
  all: cbn [real world].
  all: unfold NULL in *;
    repeat match goal with
           | H : (_ =? _) = true |- _ => rewrite H
           | H : (_ =? _) = false |- _ => rewrite H
           | H : env_dlsym _ _ _ = _ |- _ => rewrite H
           end; cbn [fst snd].
  all: conj_split.
  all: try by_test.
  all: try (eexists; reflexivity).
  all: try (intros k; unfold queries; cbn [flat_map app query_of what];
            rewrite ?symbol_eqb, ?(slot_eqb_sym _ k);
            destruct (slot_eqb k _); reflexivity).
  all: try (intros k; destruct (slot_eqb k _); reflexivity).
Qed.

(** *** More on what is written *)

(** X6: a call writes whole blocks only.  What a call that returns has
    written to the log file is, for each of its records in order, the four
    writes of one block, each block with its own [time] line; it has
    written to no other stream of [fopen]. *)
Theorem call_writes_whole_blocks t c s :
  wf s ->
  match run_call env t c s with
  | Returns r s' =>
      List.length (stamps (emitted s s')) =
        List.length (records (emitted s s')) /\
      forall lf,
        log_lines lf (emitted s s') =
          if lf =? logFile s'
          then flat_map (block_lines lf)
                 (combine (stamps (emitted s s')) (records (emitted s s')))
          else []
  | _ => True
  end.
Proof.
  intros Hwf. pose proof (step_log t c s Hwf) as H.
  destruct (run_call env t c s) as [r s'|n s'|s']; try exact I.
  destruct H as (res & _ & _ & _ & _ & Hlen & Hlog).
  split; [exact Hlen | exact Hlog].
Qed.

(** With nothing happening inside [dlsym], [fopen] and [fclose], the
    definitions for overlapping calls are the functions of the library. *)
Lemma intercept_with_nothing t c s :
  intercept_with env (ret tt) (ret tt) t c s = run_call env t c s.
Proof. rewrite run_call_intercept. reflexivity. Qed.

Lemma init_log_file_with_nothing t s :
  init_log_file_with env (ret tt) t s = init_log_file env t s.
Proof. reflexivity. Qed.

Lemma finalize_with_nothing t s :
  finalize_with env (ret tt) t s = finalize env t s.
Proof. reflexivity. Qed.

(** X10: [finalize] does not take the guard.  A [free] that [fclose] makes
    while it closes the log file (glibc's releases the [FILE]) is entered
    with [mutex = 0]: after the [EXIT] line the block is passed to the
    original [free] and [ad_log] then starts a record on the stream that is
    being closed.  What the C library does with a write to that stream is
    outside of this file; the statement stops at the first such write. *)
Theorem free_inside_fclose_reaches_log t ptr s :
  wf s ->
  logFile s <> NULL ->
  mutex s t = 0 ->
  real s real_free <> NULL ->
  exists clk res clk' rest,
    emitted s (final (finalize_with env (calling env t (Cfree ptr)) t s)) =
      mkEntry t 0 (EClock clk)
      :: mkEntry t 0 (exit_line (logFile s) clk)
      :: mkEntry t 0 (ECall (real s real_free) (Cfree ptr) res)
      :: mkEntry t 1 (EClock clk')
      :: mkEntry t 1
           (EFprintf (file (logFile s)) "time %fs\n" [ASeconds clk'])
      :: rest.
Proof.
  intros [Hm Hc] Hlf H0 Hfree.
  destruct s as [mx lf rl w m tr]. simpl in Hm, Hc, Hlf, H0, Hfree.
  apply Z.eqb_neq in Hlf. apply Z.eqb_neq in Hfree. unfold NULL in *.
  unfold finalize_with, calling. run Hm.
  all: try congruence.
  all: try (rewrite H0 in *; discriminate).
  all: do 4 eexists.
  all: unfold emitted, exit_line; cbn [trace logFile real final].
  all: rewrite <- ?app_assoc, ?skipn_length_app.
  all: cbn -[to_long Z.eqb]; rewrite ?H0; reflexivity.
Qed.

End Proofs.

(** * Instances *)

Lemma wf_toy_init : wf toy_init.
Proof.
  split; simpl; intros.
  - unfold UINT_MAX. lia.
  - congruence.
Defined.

Lemma wf_toy_after_malloc : wf toy_after_malloc.
Proof.
  split.
  - intros [|t]; cbn; unfold UINT_MAX; lia.
  - intros k _. cbn. discriminate.
Defined.

(** [malloc(64)] returns 65536, [free] is called on it, the program ends:
    the log holds the two records and ends with the [EXIT] line. *)
Example malloc_free_exit :
  let s' :=
    final (process toy 0%nat [(0%nat, Cmalloc 64); (0%nat, Cfree 65536)]
             toy_init) in
  records (trace s') = [("malloc", 64, 65536); ("free", 0, 65536)] /\
  exit_lines (trace s') = [19] /\
  closes (trace s') = [file 8192] /\
  queries real_malloc (trace s') = [4096] /\
  opens (trace s') = [8192].
Proof. vm_compute. repeat split. Qed.

(** The log file cannot be created: the first call ends the process. *)
Example fopen_failure :
  exists s',
    process readonly 0%nat [(0%nat, Cmalloc 64); (0%nat, Cfree 65536)]
      toy_init = Exits EXIT_FAILURE s' /\
    map what (trace s') =
      [EDlsym "malloc" 4096; EFopen "MemoryLog" "w" NULL;
       EFprintf stderr "error: fopen()\n" []].
Proof. eexists. split; vm_compute; reflexivity. Qed.

(** A [malloc] entered with the guard held writes nothing. *)
Example nested_malloc_is_silent :
  records
    (trace (final (bind (lock_mutex 0%nat)
                     (fun _ => malloc toy 0%nat 32) toy_init))) = [].
Proof. vm_compute. reflexivity. Qed.

(** [lock_mutex] and [unlock_mutex] on the counter of thread 0 at zero. *)
Lemma lock_unlock_mutex_contract_witness :
  0 <= mutex toy_init 0%nat <= UINT_MAX /\
  exists s3,
    bind (lock_mutex 0%nat) (fun _ => unlock_mutex 0%nat) toy_init =
      Returns tt s3 /\
    forall t', mutex s3 t' = mutex toy_init t'.
Proof.
  assert (H : 0 <= mutex toy_init 0%nat <= UINT_MAX)
    by (simpl; unfold UINT_MAX; lia).
  split; [exact H|].
  destruct (lock_unlock_mutex_contract Z 0%nat toy_init H)
    as (_ & _ & s3 & Hrun & Hm & _).
  exists s3. split; [exact Hrun | exact Hm].
Defined.

(** A first [malloc(8)] in a fresh process writes one record. *)
Lemma emission_policy_witness :
  wf toy_init /\
  match run_call toy 0%nat (Cmalloc 8) toy_init with
  | Returns r s' =>
      List.length (records (emitted toy_init s')) =
        if (mutex toy_init 0%nat =? 0) && succeeded (Cmalloc 8) r
        then records_per_call (Cmalloc 8) else 0%nat
  | Exits n s' => records (emitted toy_init s') = []
  | Faults _ => False
  end.
Proof.
  split; [exact wf_toy_init|].
  exact (emission_policy Z toy 0%nat (Cmalloc 8) toy_init wf_toy_init).
Defined.

(** C1 as stated fails for [realloc]: the call is outermost and succeeds,
    and it writes two records, not one. *)
Lemma realloc_emits_two_records :
  ~ (match run_call toy 0%nat (Crealloc 65536 16) toy_after_malloc with
     | Returns r s' =>
         List.length (records (emitted toy_after_malloc s')) = 1%nat <->
         (mutex toy_after_malloc 0%nat = 0 /\
          succeeded (Crealloc 65536 16) r = true)
     | _ => True
     end).
Proof.
  cbv. intros [_ H]. specialize (H (conj eq_refl eq_refl)). discriminate H.
Qed.

(** [realloc(65536, 16)] after the [malloc(8)] that returned 65536. *)
Lemma realloc_two_records_witness :
  wf toy_after_malloc /\
  mutex toy_after_malloc 0%nat = 0 /\
  exists clk1 clk2,
    log_lines 8192
      (emitted toy_after_malloc
         (final (realloc toy 0%nat 65536 16 toy_after_malloc))) =
      event_block 8192 clk1 "realloc" 16 (to_long 65553) ++
      event_block 8192 clk2 "free" 0 (to_long 65536).
Proof.
  split; [exact wf_toy_after_malloc|]. split; [reflexivity|].
  destruct (realloc_two_records Z toy 0%nat 65536 16 toy_after_malloc 65553
              (final (realloc toy 0%nat 65536 16 toy_after_malloc))
              wf_toy_after_malloc eq_refl)
    as (clk1 & clk2 & H & _).
  - unfold SIZE_MAX. lia.
  - vm_compute. reflexivity.
  - discriminate.
  - exists clk1, clk2. exact H.
Defined.

(** The first [malloc] of a process. *)
Lemma guard_during_resolution_witness :
  wf toy_init /\
  match run_call toy 0%nat (Cmalloc 8) toy_init with
  | Returns _ s' =>
      Forall (guard_at false (mutex toy_init 0%nat)) (emitted toy_init s')
  | Exits _ s' =>
      Forall (guard_at true (mutex toy_init 0%nat)) (emitted toy_init s')
  | Faults _ => False
  end.
Proof.
  split; [exact wf_toy_init|].
  pose proof (guard_during_resolution Z toy 0%nat (Cmalloc 8) toy_init
                wf_toy_init) as H.
  destruct H as [H _]. exact H.
Defined.

(** C3 as stated fails: the first [malloc] of a process calls [dlsym] with
    [mutex = 0]. *)
Lemma dlsym_runs_unguarded :
  ~ Forall (fun e => match what e with
                     | EDlsym _ _ => depth e <> 0
                     | _ => True
                     end)
      (trace (final (run_call toy 0%nat (Cmalloc 8) toy_init))).
Proof.
  intros H. cbv in H. inversion H as [|e l Hd _]. apply Hd. reflexivity.
Qed.

(** C4 as stated fails: a process that makes no call to an interposed
    function writes no [EXIT] line and closes no stream. *)
Lemma no_exit_line_without_calls :
  ~ (List.length
       (exit_lines (trace (final (process toy 0%nat [] toy_init)))) = 1%nat /\
     List.length
       (closes (trace (final (process toy 0%nat [] toy_init)))) = 1%nat).
Proof. cbv. intros [H _]. discriminate H. Qed.

(** No symbol is found: the first [free] ends the process. *)
Lemma lookup_failure_is_fatal_witness :
  real toy_init (slot_of (Cfree 0)) = NULL /\
  fst (env_dlsym bare (symbol (slot_of (Cfree 0))) (world toy_init)) = NULL /\
  exists s',
    run_call bare 0%nat (Cfree 0) toy_init = Exits EXIT_FAILURE s' /\
    calls (emitted toy_init s') = [].
Proof.
  split; [reflexivity|]. split; [reflexivity|].
  destruct (lookup_failure_is_fatal Z bare 0%nat (Cfree 0) toy_init
              eq_refl eq_refl) as (s' & rest & Hrun & _ & _ & Hcalls).
  exists s'. split; [exact Hrun | exact Hcalls].
Defined.

Lemma guard_range_toy_init :
  forall t', 0 <= mutex toy_init t' <= UINT_MAX.
Proof. intros t'. simpl. unfold UINT_MAX. lia. Defined.

(** [posix_memalign] for the cell at address 512. *)
Lemma result_passed_through_witness :
  (forall t', 0 <= mutex toy_init t' <= UINT_MAX) /\
  (mutex toy_init 0%nat = 0 ->
   real toy_init (slot_of (Cposix_memalign 512 64 100)) <> NULL ->
   logFile toy_init <> NULL) /\
  match run_call toy 0%nat (Cposix_memalign 512 64 100) toy_init with
  | Returns r s' =>
      exists res w2 m2,
        env_call toy (real s' (slot_of (Cposix_memalign 512 64 100)))
                 (Cposix_memalign 512 64 100)
                 (world_before_call toy (Cposix_memalign 512 64 100) toy_init,
                  mem toy_init) = (res, (w2, m2)) /\
        real s' (slot_of (Cposix_memalign 512 64 100)) <> NULL /\
        r = ret_of (Cposix_memalign 512 64 100) res /\
        mem s' = m2 /\
        calls (emitted toy_init s') =
          [ECall (real s' (slot_of (Cposix_memalign 512 64 100)))
                 (Cposix_memalign 512 64 100) res]
  | Exits n s' =>
      n = EXIT_FAILURE /\
      real toy_init (slot_of (Cposix_memalign 512 64 100)) = NULL /\
      (fst (env_dlsym toy (symbol (slot_of (Cposix_memalign 512 64 100)))
              (world toy_init)) = NULL \/
       (logFile toy_init = NULL /\
        fst (env_fopen toy LOG_FILE_NAME "w"
               (snd (env_dlsym toy
                       (symbol (slot_of (Cposix_memalign 512 64 100)))
                       (world toy_init)))) = NULL)) /\
      calls (emitted toy_init s') = [] /\ mem s' = mem toy_init
  | Faults _ => False
  end.
Proof.
  assert (H2 : mutex toy_init 0%nat = 0 ->
               real toy_init (slot_of (Cposix_memalign 512 64 100)) <> NULL ->
               logFile toy_init <> NULL)
    by (intros _ H; exfalso; apply H; reflexivity).
  split; [exact guard_range_toy_init|]. split; [exact H2|].
  pose proof (result_passed_through Z toy 0%nat (Cposix_memalign 512 64 100)
                toy_init guard_range_toy_init H2) as H.
  exact H.
Defined.

(** [calloc(3, 5)]. *)
Lemma calloc_logged_size_witness :
  wf toy_init /\
  mutex toy_init 0%nat = 0 /\
  records (emitted toy_init (final (calloc toy 0%nat 3 5 toy_init))) =
    [("calloc", 15, to_long 65536)].
Proof.
  split; [exact wf_toy_init|]. split; [reflexivity|].
  assert (Hrun : calloc toy 0%nat 3 5 toy_init =
                 Returns 65536 (final (calloc toy 0%nat 3 5 toy_init)))
    by (vm_compute; reflexivity).
  refine (proj2 (calloc_logged_size Z toy 0%nat 3 5 toy_init 65536
                   (final (calloc toy 0%nat 3 5 toy_init))
                   wf_toy_init eq_refl Hrun _) _).
  - discriminate.
  - unfold SIZE_MAX. lia.
Defined.

(** C10 as stated fails: for [calloc(2^63, 2)] on an allocator that
    returns a block, the record holds size 0, not 2^64. *)
Lemma calloc_size_wraps :
  ~ (exists ptr,
        records
          (emitted toy_init
             (final (run_call toy 0%nat (Ccalloc (2 ^ 63) 2) toy_init))) =
          [("calloc", 2 ^ 63 * 2, ptr)]).
Proof. intros [ptr H]. cbv in H. discriminate H. Qed.

(** C6: the log file is opened twice.  The first call of the process is
    [calloc(1, 32)].  Its lookup succeeds and [init_log_file] calls
    [fopen]; [fopen] allocates with [malloc], [real_malloc] is not set and
    [logFile] is still null, so this [malloc] looks itself up and calls
    [fopen] on its own.  Both calls of [fopen] succeed: two streams are
    created for [MemoryLog], [logFile] ends up with the second one and the
    first one is lost. *)
Theorem fopen_reentered_opens_twice :
  (exists r s', calloc_first = Returns r s') /\
  opens (trace (final calloc_first)) = [8208; 8225] /\
  logFile (final calloc_first) = 8225 /\
  closes (trace (final calloc_first)) = [].
Proof.
  split; [do 2 eexists; vm_compute; reflexivity|].
  vm_compute. repeat split.
Qed.

(** C9 as stated fails: two threads that make the first [malloc] of the
    process at the same time both find [real_malloc] null, and [dlsym] is
    asked twice for [malloc]. *)
Lemma two_threads_both_resolve :
  ~ (List.length (queries real_malloc (trace (final two_first_mallocs)))
     <= 1)%nat.
Proof. intros H. vm_compute in H. lia. Qed.

Lemma entry_ok_toy_after_malloc :
  mutex toy_after_malloc 0%nat = 0 ->
  real toy_after_malloc (slot_of (Cmalloc 16)) <> NULL ->
  logFile toy_after_malloc <> NULL.
Proof. intros _ _. vm_compute. discriminate. Defined.

(** A second [malloc]: no lookup, the pointers as they were. *)
Lemma resolution_cached_witness :
  (forall t', 0 <= mutex toy_after_malloc t' <= UINT_MAX) /\
  real toy_after_malloc (slot_of (Cmalloc 16)) <> NULL /\
  match run_call toy 0%nat (Cmalloc 16) toy_after_malloc with
  | Returns r s' =>
      (forall k, queries k (emitted toy_after_malloc s') = []) /\
      (forall k, real s' k = real toy_after_malloc k)
  | _ => False
  end.
Proof.
  split; [exact (proj1 wf_toy_after_malloc)|].
  split; [vm_compute; discriminate|].
  pose proof (resolution_cached Z toy 0%nat (Cmalloc 16) toy_after_malloc
                (proj1 wf_toy_after_malloc) entry_ok_toy_after_malloc) as H.
  destruct (run_call toy 0%nat (Cmalloc 16) toy_after_malloc)
    as [r s'|n s'|s'].
  - destruct H as (Hq & Hr & _). split.
    + intros k. rewrite (Hq k). destruct k; vm_compute; reflexivity.
    + intros k. rewrite (Hr k). destruct k; vm_compute; reflexivity.
  - destruct H as (H & _). vm_compute in H. discriminate H.
  - exact H.
Defined.

(** ** Instances for the further properties *)

Lemma guard_range_toy_inside_fopen :
  forall t', 0 <= mutex toy_inside_fopen t' <= UINT_MAX.
Proof. intros [|t']; vm_compute; split; discriminate. Defined.

(** [posix_memalign(512, 64, 100)]: the record holds the size 100 and the
    pointer stored at address 512. *)
Lemma logged_records_witness :
  wf toy_init /\
  match run_call toy 0%nat (Cposix_memalign 512 64 100) toy_init with
  | Returns r s' =>
      records (emitted toy_init s') =
        if (mutex toy_init 0%nat =? 0)
           && succeeded (Cposix_memalign 512 64 100) r
        then expected_records (Cposix_memalign 512 64 100) (value r) (mem s')
        else []
  | _ => True
  end.
Proof.
  split; [exact wf_toy_init|].
  exact (logged_records Z toy 0%nat (Cposix_memalign 512 64 100) toy_init
           wf_toy_init).
Defined.

Example posix_memalign_record :
  records
    (trace (final (run_call toy 0%nat (Cposix_memalign 512 64 100)
                     toy_init))) = [("posix_memalign", 100, 65536)].
Proof. vm_compute. reflexivity. Qed.

(** [free(65536)] after the first [malloc]. *)
Lemma call_frame_witness :
  wf toy_after_malloc /\
  match run_call toy 1%nat (Cfree 65536) toy_after_malloc with
  | Returns r s' =>
      wf s' /\
      (forall t', mutex s' t' = mutex toy_after_malloc t') /\
      (forall k, real toy_after_malloc k <> NULL ->
                 real s' k = real toy_after_malloc k) /\
      (forall k, k <> slot_of (Cfree 65536) ->
                 real s' k = real toy_after_malloc k) /\
      real s' (slot_of (Cfree 65536)) <> NULL /\
      logFile s' <> NULL /\
      (logFile toy_after_malloc <> NULL ->
       logFile s' = logFile toy_after_malloc)
  | _ => True
  end.
Proof.
  split; [exact wf_toy_after_malloc|].
  exact (call_frame Z toy 1%nat (Cfree 65536) toy_after_malloc
           wf_toy_after_malloc).
Defined.

(** [init_log_file] twice in a fresh process. *)
Lemma init_log_file_idempotent_witness :
  0 <= mutex toy_init 0%nat <= UINT_MAX /\
  exists s2,
    init_log_file toy 0%nat (final (init_log_file toy 0%nat toy_init)) =
      Returns tt s2 /\
    trace s2 = trace (final (init_log_file toy 0%nat toy_init)).
Proof.
  assert (Hr : 0 <= mutex toy_init 0%nat <= UINT_MAX)
    by (simpl; unfold UINT_MAX; lia).
  assert (Hrun : init_log_file toy 0%nat toy_init =
                 Returns tt (final (init_log_file toy 0%nat toy_init)))
    by (vm_compute; reflexivity).
  split; [exact Hr|].
  destruct (init_log_file_idempotent Z toy 0%nat toy_init _ Hr Hrun)
    as (_ & s2 & H2 & Htr & _).
  exists s2. split; [exact H2 | exact Htr].
Defined.

(** A [calloc] made from inside the [fopen] of the first [malloc]. *)
Lemma nested_call_is_safe_witness :
  (forall t', 0 <= mutex toy_inside_fopen t' <= UINT_MAX) /\
  mutex toy_inside_fopen 0%nat <> 0 /\
  match run_call toy 0%nat (Ccalloc 1 32) toy_inside_fopen with
  | Returns r s' =>
      records (emitted toy_inside_fopen s') = [] /\
      forall lf, log_lines lf (emitted toy_inside_fopen s') = []
  | Exits n s' => n = EXIT_FAILURE
  | Faults _ => False
  end.
Proof.
  assert (Hne : mutex toy_inside_fopen 0%nat <> 0)
    by (vm_compute; discriminate).
  split; [exact guard_range_toy_inside_fopen|]. split; [exact Hne|].
  exact (nested_call_is_safe Z toy 0%nat (Ccalloc 1 32) toy_inside_fopen
           guard_range_toy_inside_fopen Hne).
Defined.

(** The same [calloc] calls [fopen] itself: with the [fopen] it was called
    from, the file is opened twice. *)
Lemma unset_pointer_opens_log_witness :
  real toy_inside_fopen (slot_of (Ccalloc 1 32)) = NULL /\
  logFile toy_inside_fopen = NULL /\
  opens
    (emitted toy_inside_fopen
       (final (run_call toy 0%nat (Ccalloc 1 32) toy_inside_fopen))) =
    [8192].
Proof.
  split; [reflexivity|]. split; [reflexivity|].
  refine (unset_pointer_opens_log Z toy 0%nat (Ccalloc 1 32)
            toy_inside_fopen guard_range_toy_inside_fopen eq_refl eq_refl _).
  vm_compute. discriminate.
Defined.

(** [finalize] after the first [malloc]. *)
Lemma write_after_finalize_witness :
  wf toy_after_malloc /\
  logFile toy_after_malloc <> NULL /\
  exists s1,
    finalize toy 0%nat toy_after_malloc = Returns tt s1 /\
    closes (emitted toy_after_malloc s1) = [file (logFile toy_after_malloc)] /\
    logFile s1 = logFile toy_after_malloc.
Proof.
  assert (Hlf : logFile toy_after_malloc <> NULL)
    by (vm_compute; discriminate).
  split; [exact wf_toy_after_malloc|]. split; [exact Hlf|].
  destruct (write_after_finalize Z toy 0%nat toy_after_malloc
              wf_toy_after_malloc Hlf) as (s1 & H1 & H2 & H3 & _).
  exists s1. split; [exact H1|]. split; [exact H2 | exact H3].
Defined.

(** After it, a [free] of the block still writes its record, to the closed
    stream. *)
Example free_after_finalize :
  map what
    (trace (final (bind (finalize toy 0%nat)
                     (fun _ => free toy 0%nat 65536) toy_after_malloc))) =
  map what (trace toy_after_malloc) ++
  [EClock 17; EFprintf (file 8192) "EXIT %fs\n" [ASeconds 17];
   EFclose (file 8192);
   EDlsym "free" 4096; ECall 4096 (Cfree 65536) 0;
   EClock 19; EFprintf (file 8192) "time %fs\n" [ASeconds 19];
   EFprintf (file 8192) "%s %luB %li\n"
     [AStr "free"; AULong 0; ALong 65536];
   EBacktrace (file 8192) 1; EFprintf (file 8192) "\n" []].
Proof. vm_compute. reflexivity. Qed.

(** A [malloc(24)] in a fresh process. *)
Lemma call_writes_whole_blocks_witness :
  wf toy_init /\
  match run_call toy 0%nat (Cmalloc 24) toy_init with
  | Returns r s' =>
      List.length (stamps (emitted toy_init s')) =
        List.length (records (emitted toy_init s')) /\
      forall lf,
        log_lines lf (emitted toy_init s') =
          if lf =? logFile s'
          then flat_map (block_lines lf)
                 (combine (stamps (emitted toy_init s'))
                    (records (emitted toy_init s')))
          else []
  | _ => True
  end.
Proof.
  split; [exact wf_toy_init|].
  pose proof (call_writes_whole_blocks Z toy 0%nat (Cmalloc 24) toy_init
                wf_toy_init) as H.
  exact H.
Defined.

Lemma wf_toy_after_free : wf toy_after_free.
Proof.
  split.
  - intros [|t]; cbn; unfold UINT_MAX; lia.
  - intros k _. cbn. discriminate.
Defined.

(** The end of a process that called [malloc] and [free]: [fclose]
    releases a block of its own at address 70000. *)
Lemma free_inside_fclose_reaches_log_witness :
  wf toy_after_free /\
  logFile toy_after_free <> NULL /\
  mutex toy_after_free 0%nat = 0 /\
  real toy_after_free real_free <> NULL /\
  exists clk res clk' rest,
    emitted toy_after_free
      (final (finalize_with toy (calling toy 0%nat (Cfree 70000)) 0%nat
                toy_after_free)) =
      mkEntry 0%nat 0 (EClock clk)
      :: mkEntry 0%nat 0 (exit_line (logFile toy_after_free) clk)
      :: mkEntry 0%nat 0
           (ECall (real toy_after_free real_free) (Cfree 70000) res)
      :: mkEntry 0%nat 1 (EClock clk')
      :: mkEntry 0%nat 1
           (EFprintf (file (logFile toy_after_free)) "time %fs\n"
              [ASeconds clk'])
      :: rest.
Proof.
  assert (H1 : logFile toy_after_free <> NULL) by (vm_compute; discriminate).
  assert (H2 : mutex toy_after_free 0%nat = 0) by reflexivity.
  assert (H3 : real toy_after_free real_free <> NULL)
    by (vm_compute; discriminate).
  split; [exact wf_toy_after_free|].
  split; [exact H1|]. split; [exact H2|]. split; [exact H3|].
  pose proof (free_inside_fclose_reaches_log Z toy 0%nat 70000
                toy_after_free wf_toy_after_free H1 H2 H3) as H.
  exact H.
Defined.
